(** * The wish backend (main.py): routes, validation, store access, response mapping

    A shallow embedding of [main.py]: the three diagnostic handlers and the two
    handlers of the wish resource, together with the request validation that
    FastAPI runs from the declared parameter types before a handler body is
    entered.

    Conventions.
    - A Python [str] is a [string]; one character of the model stands for one
      character of the Python string, so [String.length] is Python's [len].
    - A stored document is a Python [dict]: a finite map from field names to
      values ([gmap string value]); [doc.get(k)] is the lookup [d !! k].
    - Exceptions and the mutable globals ([db], the clock read by
      [datetime.utcnow()]) are threaded explicitly: a handler is a function
      from a [World] to a [Result] and the next [World].
    - The document store is an interface (the methods the handlers call on
      [db]). Two implementations are given below for the concrete runs: an
      in-memory store that follows MongoDB, and a substitute store with
      canned answers. *)

From Stdlib Require Import ZArith Lia Ascii String List Sorted.
From stdpp Require Import base option list strings gmap pretty.

Local Open Scope string_scope.
Local Open Scope Z_scope.
Local Open Scope list_scope.

(** ** Python values *)

(** [datetime.datetime], naive (pymongo hands stored dates back without
    tzinfo): the seven fields of the object. *)
Record datetime := mk_datetime {
  year : N; month : N; day : N;
  hour : N; minute : N; second : N; microsecond : N
}.

(** [bson.ObjectId]: the 12-byte identifier as a number below 2^96. *)
Definition ObjectId := N.

(** The values a field of a stored document can hold. *)
Inductive value :=
| VNone
| VBool (b : bool)
| VInt (z : Z)
| VStr (s : string)
| VOid (o : ObjectId)
| VDate (t : datetime).

Abbreviation doc := (gmap string value).

(** *** Formatting *)

Definition digit_char (n : N) : ascii := ascii_of_N (48 + n mod 10).

(** The [w] low decimal digits of [n], most significant first: ["%0wd" % n]
    for [n < 10^w]. *)
Fixpoint zfill (w : nat) (n : N) : list ascii :=
  match w with
  | O => []
  | S w' => zfill w' (n / 10)%N ++ [digit_char n]
  end.

Definition fmt (w : nat) (n : N) : string := string_of_list_ascii (zfill w n).

(** [datetime.isoformat(sep)]: [YYYY-MM-DD<sep>HH:MM:SS], followed by
    [.ffffff] when the microsecond field is not zero. *)
Definition isoformat_sep (sep : string) (t : datetime) : string :=
  fmt 4 (year t) +:+ "-" +:+ fmt 2 (month t) +:+ "-" +:+ fmt 2 (day t) +:+ sep
  +:+ fmt 2 (hour t) +:+ ":" +:+ fmt 2 (minute t) +:+ ":" +:+ fmt 2 (second t)
  +:+ (if N.eqb (microsecond t) 0 then "" else "." +:+ fmt 6 (microsecond t)).

Definition isoformat (t : datetime) : string := isoformat_sep "T" t.

Definition hex_char (n : N) : ascii :=
  let d := (n mod 16)%N in
  ascii_of_N (if N.ltb d 10 then 48 + d else 87 + d).

Fixpoint hex_digits (w : nat) (n : N) : list ascii :=
  match w with
  | O => []
  | S w' => hex_digits w' (n / 16)%N ++ [hex_char n]
  end.

(** [str(ObjectId)]: 24 lower-case hexadecimal digits. *)
Definition str_oid (o : ObjectId) : string := string_of_list_ascii (hex_digits 24 o).

(** [str(v)]. *)
Definition py_str (v : value) : string :=
  match v with
  | VNone => "None"
  | VBool true => "True"
  | VBool false => "False"
  | VInt z => pretty z
  | VStr s => s
  | VOid o => str_oid o
  | VDate t => isoformat_sep " " t
  end.

(** Truth value of [v] in a condition. A [datetime] and an [ObjectId] are
    always true. *)
Definition truthy (v : value) : bool :=
  match v with
  | VNone => false
  | VBool b => b
  | VInt z => negb (z =? 0)
  | VStr s => negb (String.eqb s "")
  | VOid _ => true
  | VDate _ => true
  end.

(** [doc.get(k)]: the stored value, [None] when the key is absent. *)
Definition dict_get (d : doc) (k : string) : value := default VNone (d !! k).

(** [doc.get(k, dflt)]. *)
Definition dict_get_default (d : doc) (k : string) (dflt : value) : value :=
  default dflt (d !! k).

(** ** Exceptions and responses *)

Inductive exn_class := ImportError | AttributeError | ValidationError | OtherError.

(** A raised exception. Every one of them is an instance of [Exception]. *)
Inductive exn :=
| RequestValidationError (msg : string)
  (* raised by FastAPI while it builds the handler's arguments *)
| HTTPException (status_code : Z) (detail : string)
| PyError (c : exn_class) (msg : string)
  (* any other exception: its class and [str(e)] *).

Definition exn_str (e : exn) : string :=
  match e with
  | RequestValidationError msg => msg
  | HTTPException c detail => pretty c +:+ ": " +:+ detail
  | PyError _ msg => msg
  end.

Inductive Result (A : Type) :=
| Ok (a : A)
| Raise (e : exn).
Arguments Ok {A} a.
Arguments Raise {A} e.

(** The status line FastAPI answers with: 200 for a returned value, 422 for
    a request validation error, the given code for an [HTTPException], and
    500 for an exception nobody handles. *)
Definition status {A} (r : Result A) : Z :=
  match r with
  | Ok _ => 200
  | Raise (RequestValidationError _) => 422
  | Raise (HTTPException c _) => c
  | Raise (PyError _ _) => 500
  end.

(** The error kinds of the design, as the code raises them. *)
Definition StoreUnavailable : exn := HTTPException 500 "Database not available".
Definition PersistenceError : exn := HTTPException 500 "Failed to create wish".

(** A rejection of the input by a schema: FastAPI's for the declared
    parameters, or pydantic's own when a model is built in a handler. *)
Definition is_validation_error {A} (r : Result A) : bool :=
  match r with
  | Raise (RequestValidationError _) => true
  | Raise (PyError ValidationError _) => true
  | _ => false
  end.

(** ** The document store

    The methods the handlers call on [db]. [find_sort_limit coll key dir n]
    is the cursor [db[coll].find({}).sort(key, dir).limit(n)], read to its
    end; [find_one coll o] is [db[coll].find_one({"_id": o})]. The two
    attribute reads of the diagnostics handler can raise. *)
Class Store (S : Type) := {
  insert_one : string -> doc -> S -> ObjectId * S;
  find_one : string -> ObjectId -> S -> option doc;
  find_sort_limit : string -> string -> Z -> Z -> S -> list doc;
  name_attr : S -> Result value;
  list_collection_names : S -> Result (list string)
}.

(** What was asked of the store, in order. *)
Inductive call :=
| InsertOne (coll : string) (d : doc)
| FindOne (coll : string) (o : ObjectId)
| Find (coll : string) (key : string) (dir : Z) (limit : Z).

(** The process state a request runs in: the global [db] ([None] when no
    connection was configured), the clock ([clock n] is what the [n]-th
    reading of the current time gives), and the log of store calls. *)
Record World (S : Type) := mk_World {
  db : option S;
  clock : nat -> datetime;
  ticks : nat;
  calls : list call
}.
Arguments mk_World {S}.
Arguments db {S}.
Arguments clock {S}.
Arguments ticks {S}.
Arguments calls {S}.

(** Computations over a mutable state [W] that may raise. Effects made
    before an exception stay. *)
Definition M (W A : Type) : Type := W -> Result A * W.

Definition ret {W A} (a : A) : M W A := fun w => (Ok a, w).

Definition raise {W A} (e : exn) : M W A := fun w => (Raise e, w).

Definition bind {W A B} (m : M W A) (k : A -> M W B) : M W B :=
  fun w =>
    match m w with
    | (Ok a, w') => k a w'
    | (Raise e, w') => (Raise e, w')
    end.

Notation "'let!' x ':=' m 'in' k" := (bind m (fun x => k))
  (at level 10, x pattern, m at level 100, k at level 200).

(** [try: body except ... as e: handler e]: [handler e] is [None] when no
    [except] clause matches [e], which then propagates. *)
Definition try_except {W A} (body : M W A) (handler : exn -> option (M W A)) : M W A :=
  fun w =>
    match body w with
    | (Ok a, w') => (Ok a, w')
    | (Raise e, w') =>
        match handler e with
        | Some h => h w'
        | None => (Raise e, w')
        end
    end.

Definition lift {W A} (r : Result A) : M W A := fun w => (r, w).

(** Reading the global [db]. *)
Definition read_db {S} : M (World S) (option S) := fun w => (Ok (db w), w).

(** [datetime.utcnow()]. *)
Definition utcnow {S} : M (World S) datetime :=
  fun w => (Ok (clock w (ticks w)),
            mk_World (db w) (clock w) (Datatypes.S (ticks w)) (calls w)).

Definition log_call {S} (c : call) : M (World S) unit :=
  fun w => (Ok tt, mk_World (db w) (clock w) (ticks w) (calls w ++ [c])).

Definition write_db {S} (s : S) : M (World S) unit :=
  fun w => (Ok tt, mk_World (Some s) (clock w) (ticks w) (calls w)).

(** Using [db] as a database: subscripting [None] is a [TypeError]. *)
Definition the_db {S} : M (World S) S :=
  let! d := read_db in
  match d with
  | Some s => ret s
  | None => raise (PyError OtherError "'NoneType' object is not subscriptable")
  end.

(** ** Diagnostics *)

(** [read_root] and [hello]: the [message] of the dictionary returned. *)
Definition read_root : string := "Hello from FastAPI Backend!".

Definition hello : string := "Hello from the backend API!".

(** The dictionary [test_database] fills in, one field per key. *)
Module Diag.
Record t := mk {
  backend : string;
  database : string;
  database_url : value;
  database_name : value;
  connection_status : string;
  collections : list string
}.

Definition initial : t :=
  mk "✅ Running" "❌ Not Available" VNone VNone "Not Connected" [].

(** [response[key] = v], per key. *)
Definition set_database (v : string) : M t unit :=
  fun r => (Ok tt, mk (backend r) v (database_url r) (database_name r)
                      (connection_status r) (collections r)).
Definition set_database_url (v : value) : M t unit :=
  fun r => (Ok tt, mk (backend r) (database r) v (database_name r)
                      (connection_status r) (collections r)).
Definition set_database_name (v : value) : M t unit :=
  fun r => (Ok tt, mk (backend r) (database r) (database_url r) v
                      (connection_status r) (collections r)).
Definition set_connection_status (v : string) : M t unit :=
  fun r => (Ok tt, mk (backend r) (database r) (database_url r) (database_name r)
                      v (collections r)).
Definition set_collections (v : list string) : M t unit :=
  fun r => (Ok tt, mk (backend r) (database r) (database_url r) (database_name r)
                      (connection_status r) v).
End Diag.

(** [str(e)[:50]]. *)
Definition str50 (e : exn) : string := substring 0 50 (exn_str e).

(** [os.getenv(k)] in a condition: set and not empty. *)
Definition getenv_truthy (environ : gmap string string) (k : string) : bool :=
  match environ !! k with
  | Some v => negb (String.eqb v "")
  | None => false
  end.

Section Diagnostics.
Context {S : Type} `{Store S}.

(** [hasattr(db, "name")]: the attribute is read; an [AttributeError]
    answers [False], any other exception propagates. *)
Definition hasattr_name (s : S) : M Diag.t bool :=
  match name_attr s with
  | Ok _ => ret true
  | Raise (PyError AttributeError _) => ret false
  | Raise e => raise e
  end.

(** The inner [try] of [test_database]. *)
Definition test_collections (s : S) : M Diag.t unit :=
  try_except
    (let! collections := lift (list_collection_names s) in
     let! _ := Diag.set_collections (take 10 collections) in
     Diag.set_database "✅ Connected & Working")
    (fun e => Some (Diag.set_database ("⚠️  Connected but Error: " +:+ str50 e))).

(** The outer [try] of [test_database]. *)
Definition test_connection (db : option S) : M Diag.t unit :=
  try_except
    (match db with
     | Some s =>
         let! _ := Diag.set_database "✅ Available" in
         let! _ := Diag.set_database_url (VStr "✅ Configured") in
         let! has := hasattr_name s in
         let! name := (if has : bool then lift (name_attr s)
                       else ret (VStr "✅ Connected")) in
         let! _ := Diag.set_database_name name in
         let! _ := Diag.set_connection_status "Connected" in
         test_collections s
     | None => Diag.set_database "⚠️  Available but not initialized"
     end)
    (fun e =>
       match e with
       | PyError ImportError _ =>
           Some (Diag.set_database
                   "❌ Database module not found (run enable-database first)")
       | _ => Some (Diag.set_database ("❌ Error: " +:+ str50 e))
       end).

(** [test_database]: the handler of [GET /test], run on the global [db]
    and the process environment. *)
Definition test_database (db : option S) (environ : gmap string string)
  : Result Diag.t :=
  let body : M Diag.t Diag.t :=
    let! _ := test_connection db in
    (* Check environment variables *)
    let! _ := Diag.set_database_url
                (VStr (if getenv_truthy environ "DATABASE_URL"
                       then "✅ Set" else "❌ Not Set")) in
    let! _ := Diag.set_database_name
                (VStr (if getenv_truthy environ "DATABASE_NAME"
                       then "✅ Set" else "❌ Not Set")) in
    (fun response => (Ok response, response))
  in fst (body Diag.initial).

End Diagnostics.

(** ** Schemas *)

(** [Field(..., min_length=a, max_length=b)] on a [str]: the first violated
    bound is reported. *)
Definition Field_str (min_length max_length : nat) (s : string) : Result string :=
  if Nat.ltb (String.length s) min_length then
    Raise (RequestValidationError
             ("String should have at least " +:+ pretty min_length +:+ " character"))
  else if Nat.ltb max_length (String.length s) then
    Raise (RequestValidationError
             ("String should have at most " +:+ pretty max_length +:+ " characters"))
  else Ok s.

(** [class WishCreate(BaseModel)]: the body of a create request. *)
Module WishCreate.
Record t := mk { text : string }.

(** Building the model from the [text] of the request body. *)
Definition parse (body_text : string) : Result t :=
  match Field_str 1 500 body_text with
  | Ok s => Ok (mk s)
  | Raise e => Raise e
  end.
End WishCreate.

(** The dictionary both wish handlers return, with the keys of
    [class WishOut(BaseModel)]. [text] is whatever the document holds. *)
Module WishOut.
Record t := mk { id : string; text : value; created_at : string }.
End WishOut.

(** Modelled from the spec: the [Wish] schema of [schemas.py], which is not
    among the sources. Section 3: "text: UTF-8 string, 1-500 characters
    inclusive; required". *)
Definition Wish_schema (text : string) : bool :=
  Nat.leb 1 (String.length text) && Nat.leb (String.length text) 500.

(** [Query(default=d, ge=a, le=b)] on an [int] parameter: the default when
    the parameter is not given, the bounds checked when it is. The parameter
    is taken as already read as an integer. *)
Definition Query_int (default ge le : Z) (given : option Z) : Result Z :=
  match given with
  | None => Ok default
  | Some n =>
      if n <? ge then
        Raise (RequestValidationError
                 ("Input should be greater than or equal to " +:+ pretty ge))
      else if le <? n then
        Raise (RequestValidationError
                 ("Input should be less than or equal to " +:+ pretty le))
      else Ok n
  end.

(** [not doc] for what [find_one] returns: [None] and the empty dictionary
    are false. *)
Definition doc_truthy (o : option doc) : bool :=
  match o with
  | None => false
  | Some d => negb (bool_decide (d = ∅))
  end.

Section Handlers.
Context {S : Type} `{Store S}.

Definition db_insert_one (coll : string) (d : doc) : M (World S) ObjectId :=
  let! s := the_db in
  let! _ := log_call (InsertOne coll d) in
  let '(o, s') := insert_one coll d s in
  let! _ := write_db s' in
  ret o.

Definition db_find_one (coll : string) (o : ObjectId) : M (World S) (option doc) :=
  let! s := the_db in
  let! _ := log_call (FindOne coll o) in
  ret (find_one coll o s).

Definition db_find_sort_limit (coll key : string) (dir limit : Z) : M (World S) (list doc) :=
  let! s := the_db in
  let! _ := log_call (Find coll key dir limit) in
  ret (find_sort_limit coll key dir limit s).

(** Modelled from the spec: [create_document] of [database.py], which is
    not among the sources. Section 4.2, step 3: "Insert a new document
    containing the text and a server-assigned creation timestamp; the store
    assigns the unique identifier." The identifier is what it returns. *)
Definition create_document (collection_name : string) (data : doc) : M (World S) ObjectId :=
  let! now := utcnow in
  db_insert_one collection_name (<["created_at" := VDate now]> data).

(** The dictionary literal that [create_wish] returns and [list_wishes]
    appends, the same text in both: [str(doc.get("_id"))],
    [doc.get("text", "")], and the stored [created_at] formatted when it
    is true, the current time formatted otherwise. Only a [datetime] has
    an [isoformat] method. *)
Definition wish_dict (d : doc) : M (World S) WishOut.t :=
  let id := py_str (dict_get d "_id") in
  let text := dict_get_default d "text" (VStr "") in
  let! created_at :=
    (if truthy (dict_get d "created_at") then
       match dict_get d "created_at" with
       | VDate t => ret (isoformat t)
       | _ => raise (PyError AttributeError "object has no attribute 'isoformat'")
       end
     else
       let! now := utcnow in ret (isoformat now)) in
  ret (WishOut.mk id text created_at).

(** The [Wish] schema of [schemas.py] as a parameter: which texts
    [Wish(text=...)] accepts. *)
Variable Wish : string -> bool.

(** [create_wish], the body of the handler. [bson.ObjectId(inserted_id)]
    rebuilds the identifier [create_document] returned, so the re-read asks
    for that identifier. *)
Definition create_wish (payload : WishCreate.t) : M (World S) WishOut.t :=
  let! d := read_db in
  match d with
  | None => raise (HTTPException 500 "Database not available")
  | Some _ =>
      (* Validate using schema *)
      let! _ := (if Wish (WishCreate.text payload) then ret tt
                 else raise (PyError ValidationError "1 validation error for Wish")) in
      let! inserted_id :=
        create_document "wish" {[ "text" := VStr (WishCreate.text payload) ]} in
      let! doc := db_find_one "wish" inserted_id in
      if negb (doc_truthy doc) then
        raise (HTTPException 500 "Failed to create wish")
      else
        wish_dict (default ∅ doc)
  end.

(** [POST /api/wishes]: the body is parsed into a [WishCreate] first, and
    the handler runs only on a parsed payload. *)
Definition post_api_wishes (body_text : string) : M (World S) WishOut.t :=
  let! payload := lift (WishCreate.parse body_text) in
  create_wish payload.

(** The loop of [list_wishes] over the cursor. *)
Fixpoint for_doc_in (cursor : list doc) : M (World S) (list WishOut.t) :=
  match cursor with
  | [] => ret []
  | d :: rest =>
      let! r := wish_dict d in
      let! rs := for_doc_in rest in
      ret (r :: rs)
  end.

(** [list_wishes], the body of the handler. *)
Definition list_wishes (limit : Z) : M (World S) (list WishOut.t) :=
  let! d := read_db in
  match d with
  | None => raise (HTTPException 500 "Database not available")
  | Some _ =>
      let! cursor := db_find_sort_limit "wish" "created_at" (-1) limit in
      for_doc_in cursor
  end.

(** [GET /api/wishes]: the [limit] parameter is checked first. *)
Definition get_api_wishes (limit : option Z) : M (World S) (list WishOut.t) :=
  let! n := lift (Query_int 60 1 200 limit) in
  list_wishes n.

End Handlers.

(** ** An in-memory store

    Collections of documents in insertion order. It follows MongoDB where the
    handlers can see it: [insert_one] keeps dates to the millisecond and
    assigns the next free identifier; [sort] compares a missing field as
    null, which is below every other value; [limit(0)] does not limit and a
    negative limit counts as its absolute value. *)

(** BSON's comparison order as a lexicographic key: the rank of the type,
    then the value. *)
Definition bson_key (v : value) : list Z :=
  match v with
  | VNone => [1]
  | VInt z => [2; z]
  | VStr s => 3 :: map (fun c => Z.of_nat (nat_of_ascii c)) (list_ascii_of_string s)
  | VOid o => [7; Z.of_N o]
  | VBool b => [8; if b then 1 else 0]
  | VDate t => [9; Z.of_N (year t); Z.of_N (month t); Z.of_N (day t);
                Z.of_N (hour t); Z.of_N (minute t); Z.of_N (second t);
                Z.of_N (microsecond t)]
  end.

Fixpoint lex_compare (k1 k2 : list Z) : comparison :=
  match k1, k2 with
  | [], [] => Eq
  | [], _ :: _ => Lt
  | _ :: _, [] => Gt
  | x :: k1', y :: k2' =>
      match x ?= y with
      | Eq => lex_compare k1' k2'
      | c => c
      end
  end.

Definition key_leb (k1 k2 : list Z) : bool :=
  match lex_compare k1 k2 with Gt => false | _ => true end.

(** [a] may come before [b] when sorting on [key] in direction [dir]
    ([-1] descending, ascending otherwise). *)
Definition before (key : string) (dir : Z) (a b : doc) : bool :=
  if dir =? -1 then key_leb (bson_key (dict_get b key)) (bson_key (dict_get a key))
  else key_leb (bson_key (dict_get a key)) (bson_key (dict_get b key)).

Fixpoint insert_sorted (le : doc -> doc -> bool) (d : doc) (l : list doc) : list doc :=
  match l with
  | [] => [d]
  | x :: l' => if le d x then d :: l else x :: insert_sorted le d l'
  end.

Fixpoint sort_docs (le : doc -> doc -> bool) (l : list doc) : list doc :=
  match l with
  | [] => []
  | x :: l' => insert_sorted le x (sort_docs le l')
  end.

Definition cursor_limit (n : Z) (l : list doc) : list doc :=
  if n =? 0 then l else take (Z.abs_nat n) l.

Definition ms_truncate (t : datetime) : datetime :=
  mk_datetime (year t) (month t) (day t) (hour t) (minute t) (second t)
              (microsecond t / 1000 * 1000)%N.

Definition bson_encode (v : value) : value :=
  match v with
  | VDate t => VDate (ms_truncate t)
  | _ => v
  end.

Definition has_id (o : ObjectId) (d : doc) : bool :=
  match d !! "_id" with
  | Some (VOid o') => N.eqb o o'
  | _ => false
  end.

Record MemStore := mk_MemStore {
  mem_name : string;
  mem_colls : gmap string (list doc);
  mem_next : ObjectId
}.

Definition mem_coll (s : MemStore) (coll : string) : list doc :=
  default [] (mem_colls s !! coll).

Definition mem_insert_one (coll : string) (d : doc) (s : MemStore) : ObjectId * MemStore :=
  let o := mem_next s in
  let stored := <["_id" := VOid o]> (bson_encode <$> d) in
  (o, mk_MemStore (mem_name s)
                  (<[coll := mem_coll s coll ++ [stored]]> (mem_colls s))
                  (o + 1)%N).

#[export] Instance MemStore_Store : Store MemStore := {
  insert_one := mem_insert_one;
  find_one coll o s := List.find (has_id o) (mem_coll s coll);
  find_sort_limit coll key dir n s :=
    cursor_limit n (sort_docs (before key dir) (mem_coll s coll));
  name_attr s := Ok (VStr (mem_name s));
  list_collection_names s := Ok (fst <$> map_to_list (mem_colls s))
}.

(** ** A substitute store

    A handle with canned answers, as a test would put in place of [db]:
    its reads answer what the record says, also by raising, and its writes
    are acknowledged and not kept. *)
Record StubStore := mk_StubStore {
  stub_name : Result value;
  stub_collection_names : Result (list string);
  stub_inserted_id : ObjectId;
  stub_find_one : option doc;
  stub_find : list doc
}.

#[export] Instance StubStore_Store : Store StubStore := {
  insert_one coll d s := (stub_inserted_id s, s);
  find_one coll o s := stub_find_one s;
  find_sort_limit coll key dir n s := stub_find s;
  name_attr := stub_name;
  list_collection_names := stub_collection_names
}.

(** ** Vocabulary of the properties *)

(** The ranges Python keeps the fields of a [datetime] in (the day is
    further bounded by the month there). *)
Definition wf_datetime (t : datetime) : Prop :=
  (1 <= year t <= 9999 /\ 1 <= month t <= 12 /\ 1 <= day t <= 31 /\
   hour t < 24 /\ minute t < 60 /\ second t < 60 /\ microsecond t < 1000000)%N.

(** Python's order on naive [datetime]s: field by field. *)
Definition datetime_compare (a b : datetime) : comparison :=
  lex_compare (bson_key (VDate a)) (bson_key (VDate b)).

(** [a] is not later than [b]. *)
Definition datetime_le (a b : datetime) : Prop := datetime_compare a b <> Gt.

(** Newest first, on the records as they are returned: of two records the
    earlier one carries a [created_at] that is not below the later one's.
    The texts are ISO-8601, so the order of the texts is the order in time
    (lemma [isoformat_compare]). *)
Definition newest_first (rs : list WishOut.t) : Prop :=
  forall (i j : nat) (A B : WishOut.t),
    (i < j)%nat -> rs !! i = Some A -> rs !! j = Some B ->
    String.leb (WishOut.created_at B) (WishOut.created_at A) = true.

(** Reading [db.name] does not get in the way: it returns, or there is no
    such attribute ([hasattr] answers [False]). *)
Definition name_readable {S} `{Store S} (s : S) : Prop :=
  match name_attr s with
  | Ok _ => True
  | Raise (PyError AttributeError _) => True
  | Raise _ => False
  end.

(** What the two environment checks write. *)
Definition env_flag (environ : gmap string string) (k : string) : value :=
  VStr (if getenv_truthy environ k then "✅ Set" else "❌ Not Set").

(** What the outer [except] clauses write for exception [e]. *)
Definition outer_error (e : exn) : string :=
  match e with
  | PyError ImportError _ => "❌ Database module not found (run enable-database first)"
  | _ => "❌ Error: " +:+ str50 e
  end.

(** Two answers hold the same set of records. *)
Definition same_records (rs1 rs2 : list WishOut.t) : Prop :=
  forall r, r ∈ rs1 <-> r ∈ rs2.

(** The document has no usable [created_at]: the key is absent or holds a
    false value. *)
Definition lacks_created_at (d : doc) : Prop := truthy (dict_get d "created_at") = false.

(** The document's [created_at] is absent, false, or a [datetime]: the
    cases in which the dictionary literal evaluates without raising. *)
Definition mappable (d : doc) : Prop :=
  lacks_created_at d \/ exists t, d !! "created_at" = Some (VDate t).

(** The record made from [d] when the clock reads [now] at its turn. *)
Definition wish_at (d : doc) (now : datetime) : WishOut.t :=
  WishOut.mk (py_str (dict_get d "_id"))
             (dict_get_default d "text" (VStr ""))
             (match dict_get d "created_at" with
              | VDate t => isoformat t
              | _ => isoformat now
              end).

(** The contract of the query a store has to honour: a positive limit
    bounds the length of the answer, and a descending sort orders it. *)
Class QueryLaws (S : Type) `{Store S} : Prop := {
  limit_law : forall coll key dir n s,
    0 < n -> (length (find_sort_limit coll key dir n s) <= Z.to_nat n)%nat;
  sort_law : forall coll key n s,
    StronglySorted (fun a b => before key (-1) a b = true)
                   (find_sort_limit coll key (-1) n s)
}.

(** The store hands back on re-read what [create_wish] wrote at state [s]:
    the document under the identifier it assigned, the text untouched, a
    date where a date was written. *)
Definition faithful_reread {S} `{Store S} (s : S) (d : doc) : Prop :=
  let '(o, s') := insert_one "wish" d s in
  exists d' t', find_one "wish" o s' = Some d' /\
    d' !! "_id" = Some (VOid o) /\
    d' !! "text" = d !! "text" /\
    d' !! "created_at" = Some (VDate t').

(** The document [create_wish] has [create_document] write for text [t]
    when the clock reads [now]. *)
Definition written (t : string) (now : datetime) : doc :=
  <["created_at" := VDate now]> {[ "text" := VStr t ]}.

(** What the re-read of [create_wish] answers when the request with text
    [t] starts in world [w] on the store handle [s]. *)
Definition reread {S} `{Store S} (s : S) (w : World S) (t : string) : option doc :=
  let d := written t (clock w (ticks w)) in
  find_one "wish" (fst (insert_one "wish" d s)) (snd (insert_one "wish" d s)).

(** The world after the insert and the re-read: the store as the insert
    left it, one reading of the clock, two calls logged. *)
Definition after_reread {S} `{Store S} (w : World S) (t : string) : World S :=
  let d := written t (clock w (ticks w)) in
  match db w with
  | Some s =>
      mk_World (Some (snd (insert_one "wish" d s))) (clock w) (Datatypes.S (ticks w))
               (calls w ++ [InsertOne "wish" d; FindOne "wish" (fst (insert_one "wish" d s))])
  | None => w
  end.

(** Every identifier in use is below the next one to be assigned. *)
Definition mem_wf (s : MemStore) : Prop :=
  forall coll d o, d ∈ mem_coll s coll -> d !! "_id" = Some (VOid o) -> (o < mem_next s)%N.

(** ** Sample worlds *)

(** A clock that advances one second per reading. *)
Definition sample_clock (n : nat) : datetime :=
  mk_datetime 2024 5 17 9 30 (N.of_nat n) 0.

Definition world_of {S} (handle : option S) : World S :=
  mk_World handle sample_clock 0 [].

Definition empty_store : MemStore := mk_MemStore "wishes" ∅ 0%N.

(** A fresh connected store, and no connection at all. *)
Definition w_up : World MemStore := world_of (Some empty_store).
Definition w_down : World MemStore := world_of None.

(** A substitute store that keeps nothing: every re-read finds nothing. *)
Definition stub_silent : StubStore :=
  mk_StubStore (Ok (VStr "stub")) (Ok []) 7%N None [].

(** A collection as another writer could have left it: a complete wish of
    1 January, a document without [created_at], and one without [text]. *)
Definition doc_complete : doc :=
  <["_id" := VOid 0%N]>
    (<["created_at" := VDate (mk_datetime 2024 1 1 0 0 0 0)]> {[ "text" := VStr "first" ]}).

Definition doc_undated : doc :=
  <["_id" := VOid 1%N]> {[ "text" := VStr "undated" ]}.

Definition doc_textless : doc :=
  <["_id" := VOid 2%N]> {[ "created_at" := VDate (mk_datetime 2024 2 1 0 0 0 0) ]}.

Definition store_of (docs : list doc) : MemStore :=
  mk_MemStore "wishes" {[ "wish" := docs ]} (N.of_nat (length docs)).

Definition w_mixed : World MemStore :=
  world_of (Some (store_of [doc_complete; doc_undated; doc_textless])).

(** Substitute stores whose re-read answers a document without
    [created_at], and one without [text]. *)
Definition stub_undated : StubStore :=
  mk_StubStore (Ok (VStr "stub")) (Ok ["wish"]) 1%N (Some doc_undated) [doc_undated].

Definition stub_textless : StubStore :=
  mk_StubStore (Ok (VStr "stub")) (Ok ["wish"]) 2%N (Some doc_textless) [doc_textless].

(** A substitute store on which listing the collection names times out. *)
Definition stub_timeout : StubStore :=
  mk_StubStore (Ok (VStr "wishes"))
               (Raise (PyError OtherError "localhost:27017: timed out")) 0%N None [].

(** A [Wish] schema that refuses everything. *)
Definition Wish_refuses (text : string) : bool := false.

(** * Properties *)

(** ** Request validation *)

Lemma Field_str_ok (a b : nat) (s : string) :
  (a <= String.length s <= b)%nat -> Field_str a b s = Ok s.
Proof.
  intros [Ha Hb]. unfold Field_str.
  destruct (Nat.ltb_spec (String.length s) a); [lia|].
  destruct (Nat.ltb_spec b (String.length s)); [lia|]. reflexivity.
Qed.

Lemma Field_str_rejects (a b : nat) (s : string) :
  ~ (a <= String.length s <= b)%nat ->
  exists msg, Field_str a b s = Raise (RequestValidationError msg).
Proof.
  intros Hn. unfold Field_str.
  destruct (Nat.ltb_spec (String.length s) a); [eauto|].
  destruct (Nat.ltb_spec b (String.length s)); [eauto|]. lia.
Qed.

Lemma WishCreate_parse_ok (body : string) :
  (1 <= String.length body <= 500)%nat ->
  WishCreate.parse body = Ok (WishCreate.mk body).
Proof. intros Hl. unfold WishCreate.parse. now rewrite Field_str_ok. Qed.

Lemma WishCreate_parse_rejects (body : string) :
  ~ (1 <= String.length body <= 500)%nat ->
  exists msg, WishCreate.parse body = Raise (RequestValidationError msg).
Proof.
  intros Hn. unfold WishCreate.parse.
  destruct (Field_str_rejects 1 500 body Hn) as [msg ->]. eauto.
Qed.

Lemma Wish_schema_true (t : string) :
  (1 <= String.length t <= 500)%nat -> Wish_schema t = true.
Proof.
  intros [Ha Hb]. unfold Wish_schema.
  apply andb_true_intro. split; now apply Nat.leb_le.
Qed.

Lemma Query_int_in_range (d a b n : Z) :
  a <= n <= b -> Query_int d a b (Some n) = Ok n.
Proof.
  intros [Ha Hb]. unfold Query_int.
  destruct (Z.ltb_spec n a); [lia|]. destruct (Z.ltb_spec b n); [lia|]. reflexivity.
Qed.

Lemma Query_int_rejects (d a b n : Z) :
  n < a \/ b < n -> exists msg, Query_int d a b (Some n) = Raise (RequestValidationError msg).
Proof.
  intros Hn. unfold Query_int.
  destruct (Z.ltb_spec n a); [eauto|]. destruct (Z.ltb_spec b n); [eauto|]. lia.
Qed.

(** A request that fails validation leaves the world as it was: the handler
    body is not entered. *)
Lemma post_rejected_early {S} `{Store S} (Wish : string -> bool) (body : string) (w : World S) :
  ~ (1 <= String.length body <= 500)%nat ->
  exists msg, post_api_wishes Wish body w = (Raise (RequestValidationError msg), w).
Proof.
  intros Hn. destruct (WishCreate_parse_rejects body Hn) as [msg Hmsg].
  exists msg. unfold post_api_wishes, bind, lift. now rewrite Hmsg.
Qed.

Lemma post_enters_handler {S} `{Store S} (Wish : string -> bool) (body : string) (w : World S) :
  (1 <= String.length body <= 500)%nat ->
  post_api_wishes Wish body w = create_wish Wish (WishCreate.mk body) w.
Proof.
  intros Hl. unfold post_api_wishes, bind, lift. now rewrite WishCreate_parse_ok.
Qed.

(** The handler body without a store: the first statement raises. *)
Lemma create_wish_no_db {S} `{Store S} (Wish : string -> bool) (p : WishCreate.t) (w : World S) :
  db w = None -> create_wish Wish p w = (Raise StoreUnavailable, w).
Proof. intros Hdb. unfold create_wish, bind, read_db. now rewrite Hdb. Qed.

(** ** Running the handlers *)

Lemma wish_dict_date {S} (d : doc) (t : datetime) (w : World S) :
  d !! "created_at" = Some (VDate t) ->
  wish_dict d w = (Ok (wish_at d t), w).
Proof.
  intros Hd. unfold wish_dict, wish_at, dict_get, bind, ret. rewrite Hd. reflexivity.
Qed.

Lemma wish_dict_lacking {S} (d : doc) (w : World S) :
  lacks_created_at d ->
  wish_dict d w =
    (Ok (wish_at d (clock w (ticks w))),
     mk_World (db w) (clock w) (Datatypes.S (ticks w)) (calls w)).
Proof.
  unfold lacks_created_at. intros Hd.
  unfold wish_dict, wish_at, bind, ret, utcnow. rewrite Hd.
  destruct (dict_get d "created_at"); try reflexivity. discriminate Hd.
Qed.

(** On a mappable document the literal evaluates: the record is [wish_at]
    at some reading of the clock, and only the reading count moves. *)
Lemma wish_dict_mappable {S} (d : doc) (w : World S) :
  mappable d ->
  exists w', wish_dict d w = (Ok (wish_at d (clock w (ticks w))), w') /\
             db w' = db w /\ clock w' = clock w /\ calls w' = calls w /\
             (ticks w <= ticks w')%nat.
Proof.
  intros [Hl | [t Ht]].
  - rewrite (wish_dict_lacking d w Hl). eexists. split; [reflexivity|].
    simpl. repeat split; lia.
  - rewrite (wish_dict_date d t w Ht). exists w. split.
    + unfold wish_at, dict_get. rewrite Ht. reflexivity.
    + repeat split; lia.
Qed.

(** A true [created_at] that is not a [datetime] makes the literal raise. *)
Lemma wish_dict_raises {S} (d : doc) (w : World S) :
  ~ mappable d ->
  wish_dict d w =
    (Raise (PyError AttributeError "object has no attribute 'isoformat'"), w).
Proof.
  intros Hn. unfold wish_dict, bind.
  destruct (truthy (dict_get d "created_at")) eqn:Ht.
  - destruct (dict_get d "created_at") eqn:Hg; try reflexivity.
    exfalso. apply Hn. right. exists t. unfold dict_get in Hg.
    destruct (d !! "created_at") as [v|]; simpl in Hg; [now subst|discriminate].
  - exfalso. apply Hn. now left.
Qed.

Section CreateRun.
Context {S : Type} `{Store S}.
Variable Wish : string -> bool.

Lemma create_wish_run (w : World S) (s : S) (t : string) :
  db w = Some s -> Wish t = true ->
  create_wish Wish (WishCreate.mk t) w =
    if doc_truthy (reread s w t)
    then wish_dict (default ∅ (reread s w t)) (after_reread w t)
    else (Raise PersistenceError, after_reread w t).
Proof.
  intros Hdb HW.
  unfold create_wish, after_reread, reread, written, bind, read_db. rewrite Hdb. simpl.
  rewrite HW. unfold ret at 1.
  unfold create_document, db_insert_one, db_find_one, the_db, bind, read_db, utcnow,
    log_call, write_db, ret, raise. simpl. rewrite Hdb.
  destruct (insert_one _ _ s) as [o s'] eqn:Hins. simpl.
  rewrite <- app_assoc. simpl.
  destruct (doc_truthy (find_one "wish" o s')); reflexivity.
Qed.

Lemma create_wish_rejected_by_schema (w : World S) (s : S) (t : string) :
  db w = Some s -> Wish t = false ->
  create_wish Wish (WishCreate.mk t) w =
    (Raise (PyError ValidationError "1 validation error for Wish"), w).
Proof.
  intros Hdb HW. unfold create_wish, bind, read_db. rewrite Hdb. simpl.
  rewrite HW. reflexivity.
Qed.
End CreateRun.

Lemma mappable_dec (d : doc) : mappable d \/ ~ mappable d.
Proof.
  unfold mappable, lacks_created_at.
  destruct (truthy (dict_get d "created_at")) eqn:Ht; [|now left; left].
  destruct (d !! "created_at") as [v|] eqn:Hd.
  - destruct v; try (right; intros [Hf | [t' Ht']]; congruence).
    left. right. eauto.
  - unfold dict_get in Ht. rewrite Hd in Ht. discriminate.
Qed.

(** The dictionary literal returns or raises an [AttributeError], nothing
    else. *)
Lemma wish_dict_not_validation {S} (d : doc) (w : World S) :
  is_validation_error (fst (wish_dict d w)) = false.
Proof.
  destruct (mappable_dec d) as [Hm | Hn].
  - destruct (wish_dict_mappable d w Hm) as (w' & -> & _). reflexivity.
  - rewrite (wish_dict_raises d w Hn). reflexivity.
Qed.

Lemma create_wish_not_validation {S} `{Store S} (w : World S) (t : string) :
  (1 <= String.length t <= 500)%nat ->
  is_validation_error (fst (create_wish Wish_schema (WishCreate.mk t) w)) = false.
Proof.
  intros Hl. destruct (db w) as [s|] eqn:Hdb.
  - rewrite (create_wish_run Wish_schema w s t Hdb (Wish_schema_true t Hl)).
    destruct (doc_truthy _); [apply wish_dict_not_validation | reflexivity].
  - rewrite (create_wish_no_db _ _ w Hdb). reflexivity.
Qed.

(** ** The text of a create request *)

(** C1. A create request is turned down by validation exactly when the
    length of its text is outside 1..500, and a request turned down leaves
    the world as it found it: the store handle, the clock and the log of
    store calls are untouched, so nothing was asked of the store and nothing
    was written. *)
Theorem create_validates_length {S} `{Store S} (w : World S) (body : string) :
  (is_validation_error (fst (post_api_wishes Wish_schema body w)) = true <->
   ~ (1 <= String.length body <= 500)%nat) /\
  (~ (1 <= String.length body <= 500)%nat ->
   snd (post_api_wishes Wish_schema body w) = w).
Proof.
  split.
  - split.
    + intros Hv Hl. rewrite (post_enters_handler _ _ w Hl) in Hv.
      rewrite (create_wish_not_validation w body Hl) in Hv. discriminate.
    + intros Hn. destruct (post_rejected_early Wish_schema body w Hn) as [msg ->].
      reflexivity.
  - intros Hn. destruct (post_rejected_early Wish_schema body w Hn) as [msg ->].
    reflexivity.
Qed.

Lemma create_validates_length_witness :
  is_validation_error (fst (post_api_wishes Wish_schema "" w_up)) = true /\
  snd (post_api_wishes Wish_schema "" w_up) = w_up.
Proof.
  destruct (create_validates_length w_up "") as [[_ Hv] Hw].
  split; [apply Hv | apply Hw]; simpl; lia.
Defined.

(** ** Status codes of a create request *)

(** C5, as stated, fails: the empty text on a connected store is turned
    down by validation, and the answer is 422, not 500. *)
Lemma create_validation_not_500 :
  is_validation_error (fst (post_api_wishes Wish_schema "" w_up)) = true /\
  status (fst (post_api_wishes Wish_schema "" w_up)) = 422 /\
  status (fst (post_api_wishes Wish_schema "" w_up)) <> 500.
Proof. repeat split. discriminate. Qed.

(** C5, amended. A body whose text has length outside 1..500 is answered
    422; a body that passes is answered 500 with StoreUnavailable when there
    is no store connection, and 500 when the [Wish] schema built in the
    handler refuses the text. *)
Theorem create_error_statuses {S} `{Store S} (Wish : string -> bool)
    (w : World S) (body : string) :
  (~ (1 <= String.length body <= 500)%nat ->
   is_validation_error (fst (post_api_wishes Wish body w)) = true /\
   status (fst (post_api_wishes Wish body w)) = 422) /\
  ((1 <= String.length body <= 500)%nat -> db w = None ->
   fst (post_api_wishes Wish body w) = Raise StoreUnavailable /\
   status (fst (post_api_wishes Wish body w)) = 500) /\
  ((1 <= String.length body <= 500)%nat -> db w <> None -> Wish body = false ->
   is_validation_error (fst (post_api_wishes Wish body w)) = true /\
   status (fst (post_api_wishes Wish body w)) = 500).
Proof.
  split; [|split].
  - intros Hn. destruct (post_rejected_early Wish body w Hn) as [msg ->]. now split.
  - intros Hl Hdb.
    rewrite (post_enters_handler _ _ w Hl), (create_wish_no_db _ _ w Hdb). now split.
  - intros Hl Hdb HW. destruct (db w) as [s|] eqn:Hs; [|congruence].
    rewrite (post_enters_handler _ _ w Hl),
      (create_wish_rejected_by_schema Wish w s body Hs HW). now split.
Qed.

Lemma create_error_statuses_witness :
  status (fst (post_api_wishes Wish_schema "" w_up)) = 422 /\
  status (fst (post_api_wishes Wish_schema "peace" w_down)) = 500 /\
  status (fst (post_api_wishes Wish_refuses "peace" w_up)) = 500.
Proof.
  split; [|split].
  - destruct (create_error_statuses Wish_schema w_up "") as (H1 & _ & _).
    apply H1. simpl. lia.
  - destruct (create_error_statuses Wish_schema w_down "peace") as (_ & H2 & _).
    apply H2; [simpl; lia | reflexivity].
  - destruct (create_error_statuses Wish_refuses w_up "peace") as (_ & _ & H3).
    apply H3; [simpl; lia | discriminate | reflexivity].
Defined.

(** ** Order of the checks of a create request *)

(** C6, as stated, fails: without a store connection the empty text is
    still turned down by validation, not by StoreUnavailable. *)
Lemma create_no_store_invalid_text :
  db w_down = None /\
  is_validation_error (fst (post_api_wishes Wish_schema "" w_down)) = true /\
  fst (post_api_wishes Wish_schema "" w_down) <> Raise StoreUnavailable.
Proof. repeat split. discriminate. Qed.

(** C6, amended. Without a store connection the handler body raises
    StoreUnavailable on every payload before it builds the [Wish] schema or
    asks anything of the store, whatever that schema accepts; so every create
    request whose text has a length within 1..500 is answered
    StoreUnavailable, and one whose text has not is turned down by the
    validation of the body before the handler is entered. *)
Theorem store_check_precedes_schema {S} `{Store S} (Wish : string -> bool)
    (w : World S) (body : string) :
  db w = None ->
  (forall p, create_wish Wish p w = (Raise StoreUnavailable, w)) /\
  ((1 <= String.length body <= 500)%nat ->
   post_api_wishes Wish body w = (Raise StoreUnavailable, w)) /\
  (~ (1 <= String.length body <= 500)%nat ->
   is_validation_error (fst (post_api_wishes Wish body w)) = true /\
   snd (post_api_wishes Wish body w) = w).
Proof.
  intros Hdb. split; [|split].
  - intros p. now apply create_wish_no_db.
  - intros Hl. rewrite (post_enters_handler _ _ w Hl). now apply create_wish_no_db.
  - intros Hn. destruct (post_rejected_early Wish body w Hn) as [msg ->]. now split.
Qed.

Lemma store_check_precedes_schema_witness :
  post_api_wishes Wish_refuses "peace" w_down = (Raise StoreUnavailable, w_down) /\
  is_validation_error (fst (post_api_wishes Wish_refuses "" w_down)) = true.
Proof.
  split.
  - destruct (store_check_precedes_schema Wish_refuses w_down "peace") as (_ & H2 & _);
      [reflexivity|]. apply H2. simpl. lia.
  - destruct (store_check_precedes_schema Wish_refuses w_down "") as (_ & _ & H3);
      [reflexivity|]. apply H3. simpl. lia.
Defined.

(** ** Creating a wish on an available store *)

(** The dictionary literal asks nothing of the store. *)
Lemma wish_dict_store_untouched {S} (d : doc) (w : World S) :
  db (snd (wish_dict d w)) = db w /\ calls (snd (wish_dict d w)) = calls w.
Proof.
  destruct (mappable_dec d) as [Hm | Hn].
  - destruct (wish_dict_mappable d w Hm) as (w' & -> & Hdb & _ & Hc & _). now split.
  - rewrite (wish_dict_raises d w Hn). now split.
Qed.

Lemma find_app_last {A} (f : A -> bool) (l : list A) (x : A) :
  (forall y, y ∈ l -> f y = false) -> f x = true -> List.find f (l ++ [x]) = Some x.
Proof.
  induction l as [|a l IH]; intros Hl Hx; simpl.
  - now rewrite Hx.
  - rewrite (Hl a) by constructor. apply IH; [|assumption].
    intros y Hy. apply Hl. now constructor.
Qed.

Lemma mem_coll_insert (coll : string) (d : doc) (s : MemStore) :
  mem_coll (snd (mem_insert_one coll d s)) coll =
    mem_coll s coll ++ [<["_id" := VOid (mem_next s)]> (bson_encode <$> d)].
Proof. unfold mem_insert_one, mem_coll. simpl. now rewrite lookup_insert_eq. Qed.

Lemma mem_coll_insert_other (coll coll' : string) (d : doc) (s : MemStore) :
  coll <> coll' ->
  mem_coll (snd (mem_insert_one coll d s)) coll' = mem_coll s coll'.
Proof.
  intros Hne. unfold mem_insert_one, mem_coll. simpl. now rewrite lookup_insert_ne.
Qed.

Lemma mem_wf_empty : mem_wf empty_store.
Proof.
  intros coll d o Hd. unfold mem_coll, empty_store in Hd. simpl in Hd.
  rewrite lookup_empty in Hd. simpl in Hd. inversion Hd.
Qed.

(** Inserting keeps identifiers below the next one. *)
Lemma mem_wf_insert (coll : string) (d : doc) (s : MemStore) :
  mem_wf s -> mem_wf (snd (mem_insert_one coll d s)).
Proof.
  intros Hwf coll' d' o Hin Hid.
  assert (Hnext : mem_next (snd (mem_insert_one coll d s)) = (mem_next s + 1)%N)
    by reflexivity.
  rewrite Hnext. destruct (decide (coll = coll')) as [<- | Hne].
  - rewrite mem_coll_insert in Hin. apply elem_of_app in Hin as [Hin | Hin].
    + specialize (Hwf coll d' o Hin Hid). lia.
    + apply list_elem_of_singleton in Hin. subst d'.
      rewrite lookup_insert_eq in Hid. injection Hid as <-. lia.
  - rewrite (mem_coll_insert_other coll coll' d s Hne) in Hin.
    specialize (Hwf coll' d' o Hin Hid). lia.
Qed.

(** The in-memory store hands back what [create_wish] wrote. *)
Lemma mem_faithful_reread (s : MemStore) (t : string) (now : datetime) :
  mem_wf s -> faithful_reread s (written t now).
Proof.
  intros Hwf. unfold faithful_reread.
  change (insert_one "wish" (written t now) s) with (mem_insert_one "wish" (written t now) s).
  destruct (mem_insert_one "wish" (written t now) s) as [o s'] eqn:Hins.
  assert (Ho : o = mem_next s) by (unfold mem_insert_one in Hins; congruence).
  assert (Hs' : s' = snd (mem_insert_one "wish" (written t now) s)) by now rewrite Hins.
  exists (<["_id" := VOid o]> (bson_encode <$> written t now)), (ms_truncate now).
  split; [|split; [|split]].
  - change (find_one "wish" o s') with (List.find (has_id o) (mem_coll s' "wish")).
    rewrite Hs', mem_coll_insert, <- Ho. apply find_app_last.
    + intros y Hy. unfold has_id.
      destruct (y !! "_id") as [[| | | | o' |]|] eqn:Hid; try reflexivity.
      specialize (Hwf "wish" y o' Hy Hid). apply N.eqb_neq. lia.
    + unfold has_id. rewrite lookup_insert_eq. apply N.eqb_refl.
  - apply lookup_insert_eq.
  - rewrite lookup_insert_ne by discriminate. rewrite lookup_fmap.
    unfold written. rewrite lookup_insert_ne by discriminate.
    rewrite lookup_singleton_eq. reflexivity.
  - rewrite lookup_insert_ne by discriminate. rewrite lookup_fmap.
    unfold written. rewrite lookup_insert_eq. reflexivity.
Qed.

(** What a create request with an accepted text asks of the store: one
    insert of the written document, one re-read under the identifier the
    insert returned, nothing else. *)
Lemma create_wish_interactions {S} `{Store S} (w : World S) (s : S) (t : string) :
  (1 <= String.length t <= 500)%nat ->
  db w = Some s ->
  db (snd (post_api_wishes Wish_schema t w)) =
    Some (snd (insert_one "wish" (written t (clock w (ticks w))) s)) /\
  calls (snd (post_api_wishes Wish_schema t w)) =
    calls w ++ [InsertOne "wish" (written t (clock w (ticks w)));
                FindOne "wish" (fst (insert_one "wish" (written t (clock w (ticks w))) s))].
Proof.
  intros Hl Hdb.
  rewrite (post_enters_handler Wish_schema t w Hl).
  rewrite (create_wish_run Wish_schema w s t Hdb (Wish_schema_true t Hl)).
  assert (Haft : after_reread w t =
            mk_World (Some (snd (insert_one "wish" (written t (clock w (ticks w))) s)))
              (clock w) (Datatypes.S (ticks w))
              (calls w ++ [InsertOne "wish" (written t (clock w (ticks w)));
                 FindOne "wish" (fst (insert_one "wish" (written t (clock w (ticks w))) s))]))
    by (unfold after_reread; now rewrite Hdb).
  destruct (doc_truthy _).
  - destruct (wish_dict_store_untouched (default ∅ (reread s w t)) (after_reread w t))
      as [-> ->]. rewrite Haft. now split.
  - rewrite Haft. now split.
Qed.

(** C2. A create request whose text [t] has a length within 1..500, on an
    available store: the handler inserts the document made of [t] and the
    current time, then re-reads it under the identifier the insert returned,
    and asks nothing else of the store. When the re-read finds nothing the
    request fails with PersistenceError. When it finds a document, the
    record returned is made from that document; and when the store hands back
    what was written (the assigned identifier, the text, a date), the record
    carries the identifier as a string, the text [t] itself, and the stored
    date in ISO-8601. *)
Theorem create_wish_returns_stored {S} `{Store S} (w : World S) (s : S) (t : string) :
  (1 <= String.length t <= 500)%nat ->
  db w = Some s ->
  let d := written t (clock w (ticks w)) in
  let o := fst (insert_one "wish" d s) in
  let s' := snd (insert_one "wish" d s) in
  let r := fst (post_api_wishes Wish_schema t w) in
  let w' := snd (post_api_wishes Wish_schema t w) in
  db w' = Some s' /\
  calls w' = calls w ++ [InsertOne "wish" d; FindOne "wish" o] /\
  (find_one "wish" o s' = None -> r = Raise PersistenceError) /\
  (forall d' ts, find_one "wish" o s' = Some d' ->
     d' !! "_id" = Some (VOid o) -> d' !! "text" = Some (VStr t) ->
     d' !! "created_at" = Some (VDate ts) ->
     r = Ok (WishOut.mk (str_oid o) (VStr t) (isoformat ts))) /\
  (faithful_reread s d ->
   exists d' ts, find_one "wish" o s' = Some d' /\
     d' !! "created_at" = Some (VDate ts) /\
     r = Ok (WishOut.mk (str_oid o) (VStr t) (isoformat ts))).
Proof.
  intros Hl Hdb d o s' r w'.
  assert (Hrun := create_wish_run Wish_schema w s t Hdb (Wish_schema_true t Hl)).
  assert (Hpost := post_enters_handler Wish_schema t w Hl).
  assert (Hre : reread s w t = find_one "wish" o s') by reflexivity.
  assert (Haft : after_reread w t =
                 mk_World (Some s') (clock w) (Datatypes.S (ticks w))
                          (calls w ++ [InsertOne "wish" d; FindOne "wish" o]))
    by (unfold after_reread; now rewrite Hdb).
  assert (Hsome : forall d' ts, find_one "wish" o s' = Some d' ->
     d' !! "_id" = Some (VOid o) -> d' !! "text" = Some (VStr t) ->
     d' !! "created_at" = Some (VDate ts) ->
     r = Ok (WishOut.mk (str_oid o) (VStr t) (isoformat ts))).
  { intros d' ts Hf Hid Ht Hc. subst r. rewrite Hpost, Hrun, Hre, Hf. simpl.
    destruct (bool_decide (d' = ∅)) eqn:He.
    - apply bool_decide_eq_true in He. subst d'. rewrite lookup_empty in Hid. discriminate.
    - simpl. rewrite (wish_dict_date d' ts _ Hc). simpl.
      unfold wish_at, dict_get, dict_get_default. now rewrite Hid, Ht, Hc. }
  split; [|split; [|split; [|split]]].
  - exact (proj1 (create_wish_interactions w s t Hl Hdb)).
  - exact (proj2 (create_wish_interactions w s t Hl Hdb)).
  - intros Hnone. subst r. rewrite Hpost, Hrun, Hre, Hnone. reflexivity.
  - exact Hsome.
  - unfold faithful_reread. fold d.
    destruct (insert_one "wish" d s) as [o1 s1] eqn:Hins.
    intros (d' & ts & Hf & Hid & Ht & Hc). exists d', ts.
    subst o s'. simpl in *. repeat split; try assumption.
    apply (Hsome d' ts Hf Hid); [|assumption].
    rewrite Ht. unfold d, written. rewrite lookup_insert_ne by discriminate.
    apply lookup_singleton_eq.
Qed.

Lemma create_wish_returns_stored_witness :
  (exists ts, fst (post_api_wishes Wish_schema "world peace" w_up)
              = Ok (WishOut.mk (str_oid 0%N) (VStr "world peace") (isoformat ts))) /\
  fst (post_api_wishes Wish_schema "world peace" (world_of (Some stub_silent)))
    = Raise PersistenceError.
Proof.
  split.
  - destruct (create_wish_returns_stored w_up empty_store "world peace")
      as (_ & _ & _ & _ & Hf); [simpl; lia | reflexivity |].
    destruct Hf as (d' & ts & _ & _ & Hr).
    + apply mem_faithful_reread, mem_wf_empty.
    + exists ts. exact Hr.
  - destruct (create_wish_returns_stored (world_of (Some stub_silent)) stub_silent
                "world peace") as (_ & _ & Hn & _); [simpl; lia | reflexivity |].
    apply Hn. reflexivity.
Defined.

(** ** The sort of the in-memory store *)

Lemma lex_compare_antisym (a b : list Z) :
  lex_compare b a = CompOpp (lex_compare a b).
Proof.
  revert b. induction a as [|x a IH]; intros [|y b]; simpl; try reflexivity.
  rewrite (Z.compare_antisym x y). destruct (x ?= y); simpl; auto.
Qed.

Lemma key_leb_total (a b : list Z) : key_leb a b = false -> key_leb b a = true.
Proof.
  unfold key_leb. rewrite (lex_compare_antisym a b).
  destruct (lex_compare a b); simpl; congruence.
Qed.

Lemma key_leb_refl (a : list Z) : key_leb a a = true.
Proof.
  destruct (key_leb a a) eqn:E; [reflexivity|]. now rewrite <- (key_leb_total a a E).
Qed.

Lemma key_leb_trans (a b c : list Z) :
  key_leb a b = true -> key_leb b c = true -> key_leb a c = true.
Proof.
  unfold key_leb. revert b c.
  induction a as [|x a IH]; intros [|y b] [|z c]; simpl; try congruence.
  destruct (Z.compare_spec x y), (Z.compare_spec y z), (Z.compare_spec x z);
    try congruence; try lia; subst; try (intros; reflexivity).
  apply IH.
Qed.

Lemma before_total (key : string) (dir : Z) (a b : doc) :
  before key dir a b = false -> before key dir b a = true.
Proof. unfold before. destruct (dir =? -1); apply key_leb_total. Qed.

Lemma before_trans (key : string) (dir : Z) (a b c : doc) :
  before key dir a b = true -> before key dir b c = true -> before key dir a c = true.
Proof.
  unfold before. destruct (dir =? -1); intros H1 H2.
  - exact (key_leb_trans _ _ _ H2 H1).
  - exact (key_leb_trans _ _ _ H1 H2).
Qed.

Section Sorting.
Variable le : doc -> doc -> bool.
Hypothesis le_total : forall a b, le a b = false -> le b a = true.
Hypothesis le_trans : forall a b c, le a b = true -> le b c = true -> le a c = true.

Lemma insert_sorted_Forall (P : doc -> Prop) (d : doc) (l : list doc) :
  P d -> Forall P l -> Forall P (insert_sorted le d l).
Proof.
  intros Hd Hl. induction Hl as [|x l Hx Hl IH]; simpl.
  - now constructor.
  - destruct (le d x); repeat constructor; assumption.
Qed.

Lemma insert_sorted_sorted (d : doc) (l : list doc) :
  StronglySorted (fun a b => le a b = true) l ->
  StronglySorted (fun a b => le a b = true) (insert_sorted le d l).
Proof.
  induction 1 as [|x l Hs IH Hx]; simpl.
  - repeat constructor.
  - destruct (le d x) eqn:Hdx.
    + constructor; [now constructor|]. constructor; [assumption|].
      eapply Forall_impl; [exact Hx|]. intros y Hy. simpl in Hy.
      now apply (le_trans d x y).
    + constructor; [assumption|].
      apply insert_sorted_Forall; [now apply le_total | assumption].
Qed.

Lemma sort_docs_sorted (l : list doc) :
  StronglySorted (fun a b => le a b = true) (sort_docs le l).
Proof.
  induction l as [|x l IH]; simpl; [constructor | now apply insert_sorted_sorted].
Qed.
End Sorting.

Lemma StronglySorted_take {A} (R : A -> A -> Prop) (n : nat) (l : list A) :
  StronglySorted R l -> StronglySorted R (take n l).
Proof.
  intros Hs. revert n. induction Hs as [|x l Hs IH Hx]; intros [|n]; simpl;
    try constructor.
  - apply IH.
  - apply Forall_take. exact Hx.
Qed.

Lemma cursor_limit_sorted {R : doc -> doc -> Prop} (n : Z) (l : list doc) :
  StronglySorted R l -> StronglySorted R (cursor_limit n l).
Proof.
  intros Hs. unfold cursor_limit. destruct (n =? 0); [assumption|].
  now apply StronglySorted_take.
Qed.

Lemma cursor_limit_length (n : Z) (l : list doc) :
  0 < n -> (length (cursor_limit n l) <= Z.to_nat n)%nat.
Proof.
  intros Hn. unfold cursor_limit. destruct (Z.eqb_spec n 0); [lia|].
  rewrite length_take. lia.
Qed.

(** The in-memory store honours the contract of the query. *)
#[export] Instance MemStore_QueryLaws : QueryLaws MemStore.
Proof.
  split.
  - intros coll key dir n s Hn. simpl. now apply cursor_limit_length.
  - intros coll key n s. simpl. apply cursor_limit_sorted.
    apply sort_docs_sorted; [apply before_total | apply before_trans].
Qed.

(** ** Listing wishes *)

(** The world the loop starts in: the query has been logged. *)
Lemma list_wishes_run {S} `{Store S} (w : World S) (s : S) (n : Z) :
  db w = Some s ->
  list_wishes n w =
    for_doc_in (find_sort_limit "wish" "created_at" (-1) n s)
               (mk_World (db w) (clock w) (ticks w)
                         (calls w ++ [Find "wish" "created_at" (-1) n])).
Proof.
  intros Hdb. unfold list_wishes, db_find_sort_limit, the_db, bind, read_db, log_call, ret.
  rewrite Hdb. simpl. rewrite ?Hdb. reflexivity.
Qed.

Lemma list_wishes_no_db {S} `{Store S} (w : World S) (n : Z) :
  db w = None -> list_wishes n w = (Raise StoreUnavailable, w).
Proof. intros Hdb. unfold list_wishes, bind, read_db. now rewrite Hdb. Qed.

(** The loop returns one record per document, when it returns. *)
Lemma for_doc_in_length {S} (ds : list doc) (w w' : World S) (rs : list WishOut.t) :
  for_doc_in ds w = (Ok rs, w') -> length rs = length ds.
Proof.
  revert w w' rs. induction ds as [|d ds IH]; intros w w' rs; simpl.
  - unfold ret. intros [= <- _]. reflexivity.
  - unfold bind at 1. destruct (wish_dict d w) as [[r|e] w1]; [|discriminate].
    unfold bind at 1. destruct (for_doc_in ds w1) as [[rs1|e] w2] eqn:Hrest; [|discriminate].
    unfold ret. intros [= <- _]. simpl. f_equal. eapply IH. exact Hrest.
Qed.

(** The loop asks nothing of the store, whether it returns or raises. *)
Lemma for_doc_in_store_untouched {S} (ds : list doc) (w : World S) :
  db (snd (for_doc_in ds w)) = db w /\ calls (snd (for_doc_in ds w)) = calls w.
Proof.
  revert w. induction ds as [|d ds IH]; intros w; simpl; [now split|].
  destruct (wish_dict_store_untouched d w) as [Hdb Hc].
  unfold bind at 1. unfold bind at 2.
  destruct (wish_dict d w) as [[r|e] w1]; simpl in *; [|now split].
  destruct (IH w1) as [Hdb1 Hc1]. unfold bind.
  destruct (for_doc_in ds w1) as [[rs|e] w2]; simpl in *; split; congruence.
Qed.

(** On mappable documents the loop returns: record [i] is made from document
    [i] at some reading of the clock. *)
Lemma for_doc_in_mappable {S} (ds : list doc) (w : World S) :
  Forall mappable ds ->
  exists rs w', for_doc_in ds w = (Ok rs, w') /\
    clock w' = clock w /\ (ticks w <= ticks w')%nat /\
    Forall2 (fun d r => exists n, (ticks w <= n)%nat /\ r = wish_at d (clock w n)) ds rs.
Proof.
  intros Hm. revert w. induction Hm as [|d ds Hd Hm IH]; intros w; simpl.
  - exists [], w. repeat split; [lia | constructor].
  - destruct (wish_dict_mappable d w Hd) as (w1 & Hrun & _ & Hck & _ & Htk).
    destruct (IH w1) as (rs & w2 & Hrest & Hck2 & Htk2 & Hall).
    exists (wish_at d (clock w (ticks w)) :: rs), w2.
    unfold bind. rewrite Hrun, Hrest. unfold ret.
    repeat split; [congruence | lia |].
    constructor; [exists (ticks w); split; [lia | reflexivity]|].
    eapply Forall2_impl; [exact Hall|]. intros d' r' (n & Hn & ->).
    exists n. rewrite Hck. split; [lia | reflexivity].
Qed.

(** The first document that is not mappable makes the loop raise. *)
Lemma for_doc_in_raises {S} (ds : list doc) (w : World S) :
  ~ Forall mappable ds ->
  fst (for_doc_in ds w) =
    Raise (PyError AttributeError "object has no attribute 'isoformat'").
Proof.
  revert w. induction ds as [|d ds IH]; intros w Hn; simpl.
  - exfalso. apply Hn. constructor.
  - destruct (mappable_dec d) as [Hd | Hd].
    + destruct (wish_dict_mappable d w Hd) as (w1 & Hrun & _).
      unfold bind at 1. rewrite Hrun. unfold bind.
      assert (Hrest : ~ Forall mappable ds) by (intros Hf; apply Hn; now constructor).
      specialize (IH w1 Hrest). destruct (for_doc_in ds w1) as [[rs|e] w2]; simpl in *.
      * discriminate.
      * congruence.
    + unfold bind. rewrite (wish_dict_raises d w Hd). reflexivity.
Qed.

(** C3. With the store honouring the limit of a query, a listing whose
    limit is within 1..200 (60 when none is given) returns at most that many
    records whenever it returns: as many as the query with that very limit
    found. It does return, after exactly that one query, when a store is
    available and every document found is mappable. A limit outside 1..200 is turned down by validation
    with the world untouched: no query was made and no other limit was put
    in its place. *)
Theorem list_wishes_limit {S} `{QueryLaws S} (w : World S) (limit : option Z) :
  let n := default 60 limit in
  (1 <= n <= 200 ->
   (forall rs w', get_api_wishes limit w = (Ok rs, w') ->
      (length rs <= Z.to_nat n)%nat /\
      exists s, db w = Some s /\
        length rs = length (find_sort_limit "wish" "created_at" (-1) n s)) /\
   (forall s, db w = Some s ->
      Forall mappable (find_sort_limit "wish" "created_at" (-1) n s) ->
      exists rs, fst (get_api_wishes limit w) = Ok rs /\
                 (length rs <= Z.to_nat n)%nat /\
                 calls (snd (get_api_wishes limit w)) =
                   calls w ++ [Find "wish" "created_at" (-1) n])) /\
  (~ (1 <= n <= 200) ->
   is_validation_error (fst (get_api_wishes limit w)) = true /\
   snd (get_api_wishes limit w) = w).
Proof.
  intros n. split.
  - intros Hr.
    assert (Hget : get_api_wishes limit w = list_wishes n w).
    { unfold get_api_wishes, bind, lift. subst n. destruct limit as [m|].
      - rewrite Query_int_in_range by exact Hr. reflexivity.
      - reflexivity. }
    rewrite Hget. split.
    + intros rs w' Hrun. destruct (db w) as [s|] eqn:Hdb.
      * rewrite (list_wishes_run w s n Hdb) in Hrun.
        rewrite (for_doc_in_length _ _ _ _ Hrun).
        split; [apply limit_law; lia | exists s; now split].
      * rewrite (list_wishes_no_db w n Hdb) in Hrun. discriminate.
    + intros s Hdb Hm. rewrite (list_wishes_run w s n Hdb).
      destruct (for_doc_in_mappable _ (mk_World (db w) (clock w) (ticks w)
                  (calls w ++ [Find "wish" "created_at" (-1) n])) Hm)
        as (rs & w' & Hrun & _).
      exists rs. rewrite (proj2 (for_doc_in_store_untouched _ _)). rewrite Hrun.
      repeat split. rewrite (for_doc_in_length _ _ _ _ Hrun). apply limit_law. lia.
  - intros Hn. subst n. destruct limit as [m|]; simpl in Hn; [|lia].
    destruct (Query_int_rejects 60 1 200 m) as [msg Hmsg]; [lia|].
    unfold get_api_wishes, bind, lift. rewrite Hmsg. now split.
Qed.

(** What holds of every document of a collection holds of every document
    a query on it finds. *)
Lemma mem_cursor_Forall (P : doc -> Prop) (s : MemStore) (coll key : string) (dir n : Z) :
  Forall P (mem_coll s coll) -> Forall P (find_sort_limit coll key dir n s).
Proof.
  intros Hall. simpl. unfold cursor_limit.
  assert (Hsort : Forall P (sort_docs (before key dir) (mem_coll s coll))).
  { induction Hall as [|x l Hx Hl IH]; simpl; [constructor|].
    now apply insert_sorted_Forall. }
  destruct (n =? 0); [assumption | now apply Forall_take].
Qed.

Lemma mem_coll_store_of (docs : list doc) : mem_coll (store_of docs) "wish" = docs.
Proof. unfold mem_coll, store_of. simpl. now rewrite lookup_singleton_eq. Qed.

Lemma sample_docs_mappable : Forall mappable [doc_complete; doc_undated; doc_textless].
Proof.
  apply List.Forall_cons; [|apply List.Forall_cons; [|apply List.Forall_cons; [|apply List.Forall_nil]]].
  - right. eexists. vm_compute. reflexivity.
  - left. vm_compute. reflexivity.
  - right. eexists. vm_compute. reflexivity.
Qed.

Lemma list_wishes_limit_witness :
  (exists rs, fst (get_api_wishes (Some 2) w_mixed) = Ok rs /\ (length rs <= 2)%nat) /\
  is_validation_error (fst (get_api_wishes (Some 0) w_mixed)) = true /\
  is_validation_error (fst (get_api_wishes (Some 201) w_mixed)) = true.
Proof.
  split; [|split].
  - destruct (list_wishes_limit w_mixed (Some 2)) as [Hin _].
    destruct Hin as [_ Hret]; [simpl; lia|].
    destruct (Hret (store_of [doc_complete; doc_undated; doc_textless]))
      as (rs & Hrs & Hlen & _).
    + reflexivity.
    + apply mem_cursor_Forall. rewrite mem_coll_store_of. apply sample_docs_mappable.
    + exists rs. split; assumption.
  - destruct (list_wishes_limit w_mixed (Some 0)) as [_ Hout].
    apply Hout. simpl. lia.
  - destruct (list_wishes_limit w_mixed (Some 201)) as [_ Hout].
    apply Hout. simpl. lia.
Defined.

(** ** Documents with fields missing *)

Lemma wish_at_lacking (d : doc) (now : datetime) :
  lacks_created_at d -> WishOut.created_at (wish_at d now) = isoformat now.
Proof.
  unfold lacks_created_at, wish_at. simpl.
  destruct (dict_get d "created_at"); try reflexivity. discriminate.
Qed.

Lemma wish_at_textless (d : doc) (now : datetime) :
  d !! "text" = None -> WishOut.text (wish_at d now) = VStr "".
Proof. intros Hd. unfold wish_at, dict_get_default. simpl. now rewrite Hd. Qed.

(** A create request whose re-read finds a mappable document returns the
    record made from it at the second reading of the clock (the first was
    the timestamp of the insert). *)
Lemma create_wish_found {S} `{Store S} (w : World S) (s : S) (t : string) (d : doc) :
  (1 <= String.length t <= 500)%nat -> db w = Some s ->
  reread s w t = Some d -> d <> ∅ -> mappable d ->
  fst (post_api_wishes Wish_schema t w) = Ok (wish_at d (clock w (Datatypes.S (ticks w)))).
Proof.
  intros Hl Hdb Hre Hne Hm.
  rewrite (post_enters_handler Wish_schema t w Hl).
  rewrite (create_wish_run Wish_schema w s t Hdb (Wish_schema_true t Hl)), Hre. simpl.
  rewrite bool_decide_eq_false_2 by assumption. simpl.
  destruct (wish_dict_mappable d (after_reread w t) Hm) as (w' & -> & _).
  unfold after_reread. rewrite Hdb. reflexivity.
Qed.

(** A listing on an available store whose documents are all mappable
    returns one record per document, each made from its document at some
    reading of the clock. *)
Lemma list_wishes_found {S} `{Store S} (w : World S) (s : S) (limit : option Z) :
  1 <= default 60 limit <= 200 -> db w = Some s ->
  Forall mappable (find_sort_limit "wish" "created_at" (-1) (default 60 limit) s) ->
  exists rs, fst (get_api_wishes limit w) = Ok rs /\
    Forall2 (fun d r => exists n, (ticks w <= n)%nat /\ r = wish_at d (clock w n))
            (find_sort_limit "wish" "created_at" (-1) (default 60 limit) s) rs.
Proof.
  intros Hr Hdb Hm.
  assert (Hget : get_api_wishes limit w = list_wishes (default 60 limit) w).
  { unfold get_api_wishes, bind, lift. destruct limit as [m|].
    - rewrite Query_int_in_range by exact Hr. reflexivity.
    - reflexivity. }
  rewrite Hget, (list_wishes_run w s _ Hdb).
  destruct (for_doc_in_mappable _ (mk_World (db w) (clock w) (ticks w)
              (calls w ++ [Find "wish" "created_at" (-1) (default 60 limit)])) Hm)
    as (rs & w' & Hrun & _ & _ & Hall).
  exists rs. rewrite Hrun. split; [reflexivity | exact Hall].
Qed.

(** C7. A document without a usable [created_at] does not make either
    mapping fail: the create response carries the current time in its place,
    and a listing whose other documents carry dates returns a record for
    every document found, those without [created_at] carrying a reading of
    the clock taken during the request. *)
Theorem missing_created_at_reads_now {S} `{Store S} (w : World S) (s : S) :
  db w = Some s ->
  (forall t d, (1 <= String.length t <= 500)%nat ->
     reread s w t = Some d -> d <> ∅ -> lacks_created_at d ->
     exists r, fst (post_api_wishes Wish_schema t w) = Ok r /\
       WishOut.created_at r = isoformat (clock w (Datatypes.S (ticks w)))) /\
  (forall limit, 1 <= default 60 limit <= 200 ->
     let ds := find_sort_limit "wish" "created_at" (-1) (default 60 limit) s in
     Forall mappable ds ->
     exists rs, fst (get_api_wishes limit w) = Ok rs /\
       length rs = length ds /\
       forall i d, ds !! i = Some d -> lacks_created_at d ->
         exists r n, rs !! i = Some r /\ (ticks w <= n)%nat /\
           WishOut.created_at r = isoformat (clock w n)).
Proof.
  intros Hdb. split.
  - intros t d Hl Hre Hne Hlack. eexists. split.
    + apply (create_wish_found w s t d Hl Hdb Hre Hne). now left.
    + now apply wish_at_lacking.
  - intros limit Hr ds Hm.
    destruct (list_wishes_found w s limit Hr Hdb Hm) as (rs & Hrs & Hall).
    exists rs. split; [assumption|]. split.
    + symmetry. eapply Forall2_length. exact Hall.
    + intros i d Hi Hlack.
      destruct (Forall2_lookup_l _ _ _ _ _ Hall Hi) as (r & Hr' & n & Hn & ->).
      exists (wish_at d (clock w n)), n. repeat split; try assumption.
      now apply wish_at_lacking.
Qed.

Lemma missing_created_at_reads_now_witness :
  (exists r, fst (post_api_wishes Wish_schema "peace" (world_of (Some stub_undated))) = Ok r /\
     WishOut.created_at r = isoformat (sample_clock 1)) /\
  (exists rs, fst (get_api_wishes (Some 5) w_mixed) = Ok rs /\ length rs = 3%nat).
Proof.
  split.
  - destruct (missing_created_at_reads_now (world_of (Some stub_undated)) stub_undated)
      as [Hc _]; [reflexivity|].
    apply (Hc "peace" doc_undated); [simpl; lia | reflexivity | | vm_compute; reflexivity].
    intros He. apply (f_equal (fun m : doc => m !! "_id")) in He. vm_compute in He. discriminate.
  - destruct (missing_created_at_reads_now w_mixed
                (store_of [doc_complete; doc_undated; doc_textless])) as [_ Hl]; [reflexivity|].
    destruct (Hl (Some 5)) as (rs & Hrs & Hlen & _); [simpl; lia | |].
    + apply mem_cursor_Forall. rewrite mem_coll_store_of. apply sample_docs_mappable.
    + exists rs. split; [assumption|]. rewrite Hlen. vm_compute. reflexivity.
Defined.

(** C10. A document without a [text] field is mapped to the empty text by
    both handlers, so a record with empty text can be returned; while the
    document a create request writes for a text of length within 1..500
    carries that text, which is not empty. *)
Theorem missing_text_reads_empty {S} `{Store S} (w : World S) (s : S) :
  db w = Some s ->
  (forall t d, (1 <= String.length t <= 500)%nat ->
     reread s w t = Some d -> d <> ∅ -> mappable d -> d !! "text" = None ->
     exists r, fst (post_api_wishes Wish_schema t w) = Ok r /\ WishOut.text r = VStr "") /\
  (forall limit, 1 <= default 60 limit <= 200 ->
     let ds := find_sort_limit "wish" "created_at" (-1) (default 60 limit) s in
     Forall mappable ds ->
     exists rs, fst (get_api_wishes limit w) = Ok rs /\
       forall i d, ds !! i = Some d -> d !! "text" = None ->
         exists r, rs !! i = Some r /\ WishOut.text r = VStr "") /\
  (forall t, (1 <= String.length t <= 500)%nat ->
     exists d o, calls (snd (post_api_wishes Wish_schema t w)) =
                   calls w ++ [InsertOne "wish" d; FindOne "wish" o] /\
       d !! "text" = Some (VStr t) /\ t <> "").
Proof.
  intros Hdb. split; [|split].
  - intros t d Hl Hre Hne Hm Ht. eexists. split.
    + apply (create_wish_found w s t d Hl Hdb Hre Hne Hm).
    + now apply wish_at_textless.
  - intros limit Hr ds Hm.
    destruct (list_wishes_found w s limit Hr Hdb Hm) as (rs & Hrs & Hall).
    exists rs. split; [assumption|].
    intros i d Hi Ht.
    destruct (Forall2_lookup_l _ _ _ _ _ Hall Hi) as (r & Hr' & n & Hn & ->).
    exists (wish_at d (clock w n)). split; [assumption | now apply wish_at_textless].
  - intros t Hl.
    destruct (create_wish_interactions w s t Hl Hdb) as [_ Hc].
    eexists _, _. split; [exact Hc|]. split.
    + unfold written. rewrite lookup_insert_ne by discriminate. apply lookup_singleton_eq.
    + intros ->. simpl in Hl. lia.
Qed.

Lemma missing_text_reads_empty_witness :
  (exists r, fst (post_api_wishes Wish_schema "peace" (world_of (Some stub_textless))) = Ok r /\
     WishOut.text r = VStr "") /\
  (exists rs r, fst (get_api_wishes None w_mixed) = Ok rs /\
     rs !! 0%nat = Some r /\ WishOut.text r = VStr "").
Proof.
  split.
  - destruct (missing_text_reads_empty (world_of (Some stub_textless)) stub_textless)
      as (Hc & _ & _); [reflexivity|].
    apply (Hc "peace" doc_textless); [simpl; lia | reflexivity | | | vm_compute; reflexivity].
    + intros He. apply (f_equal (fun m : doc => m !! "_id")) in He.
      vm_compute in He. discriminate.
    + right. eexists. vm_compute. reflexivity.
  - destruct (missing_text_reads_empty w_mixed
                (store_of [doc_complete; doc_undated; doc_textless])) as (_ & Hl & _);
      [reflexivity|].
    destruct (Hl None) as (rs & Hrs & Hall); [simpl; lia | |].
    + apply mem_cursor_Forall. rewrite mem_coll_store_of. apply sample_docs_mappable.
    + destruct (Hall 0%nat doc_textless) as (r & Hr & Ht);
        [vm_compute; reflexivity | vm_compute; reflexivity |].
      exists rs, r. repeat split; assumption.
Defined.

(** ** Listing twice *)

Lemma Forall_mappable_dec (ds : list doc) : Forall mappable ds \/ ~ Forall mappable ds.
Proof.
  induction ds as [|d ds [IH | IH]].
  - left. constructor.
  - destruct (mappable_dec d) as [Hd | Hd].
    + left. now constructor.
    + right. intros Hf. apply Hd. now inversion Hf.
  - right. intros Hf. apply IH. now inversion Hf.
Qed.

(** A listing leaves the store handle as it was. *)
Lemma get_api_wishes_read_only {S} `{Store S} (w : World S) (limit : option Z) :
  db (snd (get_api_wishes limit w)) = db w.
Proof.
  unfold get_api_wishes, bind, lift.
  destruct (Query_int 60 1 200 limit) as [n|e]; [|reflexivity].
  destruct (db w) as [s|] eqn:Hdb.
  - rewrite (list_wishes_run w s n Hdb).
    rewrite (proj1 (for_doc_in_store_untouched _ _)). simpl. congruence.
  - rewrite (list_wishes_no_db w n Hdb). simpl. congruence.
Qed.

Lemma Query_int_default (d a b n : Z) (given : option Z) :
  Query_int d a b given = Ok n -> n = default d given.
Proof.
  unfold Query_int. destruct given as [m|]; simpl.
  - destruct (m <? a); [discriminate|]. destruct (b <? m); [discriminate|]. congruence.
  - congruence.
Qed.

(** Two listings with the same limit on the same store handle, whatever the
    clock reads: they raise the same exception, or both return, one record
    per document found, each record made from its document. *)
Lemma get_api_wishes_two_runs {S} `{Store S} (wa wb : World S) (limit : option Z) :
  db wb = db wa ->
  (forall e, fst (get_api_wishes limit wa) = Raise e ->
             fst (get_api_wishes limit wb) = Raise e) /\
  (forall rs1, fst (get_api_wishes limit wa) = Ok rs1 ->
     exists s rs2, db wa = Some s /\ fst (get_api_wishes limit wb) = Ok rs2 /\
       let ds := find_sort_limit "wish" "created_at" (-1) (default 60 limit) s in
       Forall2 (fun d r => exists now, r = wish_at d now) ds rs1 /\
       Forall2 (fun d r => exists now, r = wish_at d now) ds rs2).
Proof.
  intros Hsame. unfold get_api_wishes, bind, lift.
  destruct (Query_int 60 1 200 limit) as [n|e] eqn:HQ; [|split; [tauto | discriminate]].
  apply Query_int_default in HQ. subst n.
  destruct (db wa) as [s|] eqn:Ha.
  - rewrite (list_wishes_run wa s _ Ha), (list_wishes_run wb s _ Hsame).
    destruct (Forall_mappable_dec
                (find_sort_limit "wish" "created_at" (-1) (default 60 limit) s)) as [Hm | Hm].
    + destruct (for_doc_in_mappable _ (mk_World (db wa) (clock wa) (ticks wa)
          (calls wa ++ [Find "wish" "created_at" (-1) (default 60 limit)])) Hm)
        as (rsa & wa' & Hra & _ & _ & Halla).
      destruct (for_doc_in_mappable _ (mk_World (db wb) (clock wb) (ticks wb)
          (calls wb ++ [Find "wish" "created_at" (-1) (default 60 limit)])) Hm)
        as (rsb & wb' & Hrb & _ & _ & Hallb).
      rewrite Hra, Hrb. simpl. split; [discriminate|].
      intros rs1 [= <-]. exists s, rsb. repeat split.
      * eapply Forall2_impl; [exact Halla|]. intros d r (k & _ & ->). eauto.
      * eapply Forall2_impl; [exact Hallb|]. intros d r (k & _ & ->). eauto.
    + rewrite (for_doc_in_raises _ _ Hm), (for_doc_in_raises _ _ Hm).
      split; [tauto | discriminate].
  - rewrite (list_wishes_no_db wa _ Ha), (list_wishes_no_db wb _ Hsame).
    split; [tauto | discriminate].
Qed.

Lemma wish_at_ids (ds : list doc) (rs : list WishOut.t) :
  Forall2 (fun d r => exists now, r = wish_at d now) ds rs ->
  WishOut.id <$> rs = (fun d => py_str (dict_get d "_id")) <$> ds /\
  WishOut.text <$> rs = (fun d => dict_get_default d "text" (VStr "")) <$> ds.
Proof.
  induction 1 as [|d r ds rs (now & ->) Hrest [IH1 IH2]]; [now split|].
  rewrite !fmap_cons, IH1, IH2. now split.
Qed.

(** C8, as stated, fails: two listings in a row on a store that nothing
    touched in between answer different records when a document has no
    [created_at], because each reading shows the time it was made at. *)
Lemma listing_twice_differs :
  db (snd (get_api_wishes (Some 5) w_mixed)) = db w_mixed /\
  exists rs1 rs2,
    fst (get_api_wishes (Some 5) w_mixed) = Ok rs1 /\
    fst (get_api_wishes (Some 5) (snd (get_api_wishes (Some 5) w_mixed))) = Ok rs2 /\
    ~ same_records rs1 rs2.
Proof.
  split; [apply get_api_wishes_read_only|].
  eexists _, _. split; [vm_compute; reflexivity|]. split; [vm_compute; reflexivity|].
  intros Hs.
  specialize (Hs (WishOut.mk "000000000000000000000001" (VStr "undated")
                             "2024-05-17T09:30:00")).
  destruct Hs as [Hin _].
  assert (Hfirst : WishOut.mk "000000000000000000000001" (VStr "undated")
                     "2024-05-17T09:30:00"
                   ∈ [WishOut.mk "000000000000000000000002" (VStr "") "2024-02-01T00:00:00";
                      WishOut.mk "000000000000000000000000" (VStr "first")
                                 "2024-01-01T00:00:00";
                      WishOut.mk "000000000000000000000001" (VStr "undated")
                                 "2024-05-17T09:30:00"])
    by (do 2 apply list_elem_of_further; apply list_elem_of_here).
  apply Hin in Hfirst. rewrite !elem_of_cons, elem_of_nil in Hfirst.
  destruct Hfirst as [Hf | [Hf | [Hf | []]]]; discriminate Hf.
Qed.

(** C8, amended. Two listings in a row with the same limit, nothing having
    touched the store in between: the store handle is the same after each;
    if the first raises, the second raises the same; if the first returns,
    the second returns as many records, for the same documents in the same
    order, with the same ids and texts, and with the same record at every
    position whose document carries a date. *)
Theorem listing_twice {S} `{Store S} (w : World S) (limit : option Z) :
  db (snd (get_api_wishes limit w)) = db w /\
  db (snd (get_api_wishes limit (snd (get_api_wishes limit w)))) = db w /\
  (forall e, fst (get_api_wishes limit w) = Raise e ->
     fst (get_api_wishes limit (snd (get_api_wishes limit w))) = Raise e) /\
  (forall rs1, fst (get_api_wishes limit w) = Ok rs1 ->
     exists s rs2, db w = Some s /\
       fst (get_api_wishes limit (snd (get_api_wishes limit w))) = Ok rs2 /\
       length rs1 = length rs2 /\
       WishOut.id <$> rs1 = WishOut.id <$> rs2 /\
       WishOut.text <$> rs1 = WishOut.text <$> rs2 /\
       forall i d t,
         find_sort_limit "wish" "created_at" (-1) (default 60 limit) s !! i = Some d ->
         d !! "created_at" = Some (VDate t) ->
         rs1 !! i = rs2 !! i /\
         exists r, rs1 !! i = Some r /\ WishOut.created_at r = isoformat t).
Proof.
  assert (H1 := get_api_wishes_read_only w limit).
  assert (H2 := get_api_wishes_read_only (snd (get_api_wishes limit w)) limit).
  destruct (get_api_wishes_two_runs w (snd (get_api_wishes limit w)) limit H1)
    as [Herr Hok].
  split; [assumption|]. split; [congruence|]. split; [exact Herr|].
  intros rs1 Hr1. destruct (Hok rs1 Hr1) as (s & rs2 & Hdb & Hr2 & Hall1 & Hall2).
  exists s, rs2. split; [assumption|]. split; [assumption|].
  destruct (wish_at_ids _ _ Hall1) as [Hid1 Htx1].
  destruct (wish_at_ids _ _ Hall2) as [Hid2 Htx2].
  split; [|split; [congruence|split; [congruence|]]].
  - rewrite <- (Forall2_length _ _ _ Hall1). apply (Forall2_length _ _ _ Hall2).
  - intros i d t Hi Hd.
    destruct (Forall2_lookup_l _ _ _ _ _ Hall1 Hi) as (r1 & Hl1 & now1 & ->).
    destruct (Forall2_lookup_l _ _ _ _ _ Hall2 Hi) as (r2 & Hl2 & now2 & ->).
    assert (Hat : forall now, wish_at d now = wish_at d now1).
    { intros now. unfold wish_at, dict_get. now rewrite Hd. }
    split.
    + rewrite Hl1, Hl2, (Hat now2). reflexivity.
    + eexists. split; [exact Hl1|]. unfold wish_at, dict_get. simpl. now rewrite Hd.
Qed.

Lemma listing_twice_witness :
  exists rs1 rs2,
    fst (get_api_wishes (Some 2) w_mixed) = Ok rs1 /\
    fst (get_api_wishes (Some 2) (snd (get_api_wishes (Some 2) w_mixed))) = Ok rs2 /\
    rs1 !! 0%nat = rs2 !! 0%nat.
Proof.
  destruct (listing_twice w_mixed (Some 2)) as (_ & _ & _ & Hok).
  destruct (Hok [WishOut.mk "000000000000000000000002" (VStr "") "2024-02-01T00:00:00";
                 WishOut.mk "000000000000000000000000" (VStr "first") "2024-01-01T00:00:00"])
    as (s & rs2 & Hdb & Hr2 & _ & _ & _ & Hsame); [vm_compute; reflexivity|].
  injection Hdb as <-.
  destruct (Hsame 0%nat doc_textless (mk_datetime 2024 2 1 0 0 0 0)) as [Heq _];
    [vm_compute; reflexivity | vm_compute; reflexivity |].
  eexists _, rs2. split; [vm_compute; reflexivity|]. split; [exact Hr2 | exact Heq].
Defined.

(** ** Diagnostics *)

(** One case of the run of [test_database]: evaluate, then settle each
    field, using what is known of the two attribute reads. *)
Ltac diag_facts Hn Hl :=
  repeat match goal with
         | H : match name_attr _ with _ => _ end |- _ => rewrite Hn in H
         | H : ~ match name_attr _ with _ => _ end |- _ => rewrite Hn in H
         | H : name_attr _ = Raise ?e |- _ =>
             is_var e; rewrite Hn in H; injection H as <-
         | H : list_collection_names _ = Raise ?e |- _ =>
             is_var e; rewrite Hl in H; first [discriminate H | injection H as <-]
         | H : list_collection_names _ = Ok ?n |- _ =>
             is_var n; rewrite Hl in H; first [discriminate H | injection H as <-]
         end.

Ltac diag_run Hn Hl :=
  eexists; split;
  [ unfold try_except, bind, lift, ret, raise; simpl; rewrite ?Hn, ?Hl; reflexivity
  | simpl; repeat split; intros; simplify_eq; diag_facts Hn Hl;
    try reflexivity; try tauto; try discriminate ].

(** C9. [test_database] returns a dictionary whatever the store handle and
    the environment are. The two environment fields and [backend] are the
    same in every case. A failure while listing the collection names is
    written into [database] and leaves the other fields as a successful
    connection sets them, with [collections] still empty; a failure while
    reading [db.name] is written into [database] as well. *)
Theorem test_database_never_raises {S} `{Store S}
    (db : option S) (environ : gmap string string) :
  exists r, test_database db environ = Ok r /\
    Diag.backend r = "✅ Running" /\
    Diag.database_url r = env_flag environ "DATABASE_URL" /\
    Diag.database_name r = env_flag environ "DATABASE_NAME" /\
    (db = None ->
       Diag.database r = "⚠️  Available but not initialized" /\
       Diag.connection_status r = "Not Connected" /\ Diag.collections r = []) /\
    (forall s names, db = Some s -> name_readable s ->
       list_collection_names s = Ok names ->
       Diag.database r = "✅ Connected & Working" /\
       Diag.connection_status r = "Connected" /\ Diag.collections r = take 10 names) /\
    (forall s e, db = Some s -> name_readable s ->
       list_collection_names s = Raise e ->
       Diag.database r = "⚠️  Connected but Error: " +:+ str50 e /\
       Diag.connection_status r = "Connected" /\ Diag.collections r = []) /\
    (forall s e, db = Some s -> ~ name_readable s -> name_attr s = Raise e ->
       Diag.database r = outer_error e /\
       Diag.connection_status r = "Not Connected" /\ Diag.collections r = []).
Proof.
  unfold test_database, test_connection, test_collections, hasattr_name, name_readable,
    env_flag, outer_error.
  destruct db as [s|].
  - destruct (name_attr s) as [v|e] eqn:Hn.
    + destruct (list_collection_names s) as [names|e'] eqn:Hl; diag_run Hn Hl.
    + destruct e as [msg|c detail|c msg]; [| |destruct c];
        destruct (list_collection_names s) as [names|e'] eqn:Hl; diag_run Hn Hl.
  - eexists. split; [reflexivity|].
    simpl. repeat split; intros; simplify_eq; reflexivity.
Qed.

Lemma test_database_never_raises_witness :
  exists r, test_database (Some stub_timeout) ∅ = Ok r /\
    Diag.database r = "⚠️  Connected but Error: localhost:27017: timed out" /\
    Diag.connection_status r = "Connected".
Proof.
  destruct (test_database_never_raises (Some stub_timeout) ∅)
    as (r & Hr & _ & _ & _ & _ & _ & Hfail & _).
  destruct (Hfail stub_timeout (PyError OtherError "localhost:27017: timed out"))
    as (Hd & Hc & _); [reflexivity | exact I | reflexivity |].
  exists r. split; [exact Hr|]. split; [exact Hd | exact Hc].
Defined.

(** ** ISO-8601 texts order as their times *)

Lemma string_of_list_ascii_snoc (l : list ascii) (c : ascii) :
  string_of_list_ascii (l ++ [c]) = string_of_list_ascii l +:+ String c "".
Proof. induction l as [|a l IH]; simpl; [reflexivity | now rewrite IH]. Qed.

Lemma fmt_succ (w : nat) (n : N) :
  fmt (Datatypes.S w) n = fmt w (n / 10)%N +:+ String (digit_char n) "".
Proof. unfold fmt. simpl. apply string_of_list_ascii_snoc. Qed.

Lemma append_length (s1 s2 : string) :
  String.length (s1 +:+ s2) = (String.length s1 + String.length s2)%nat.
Proof. induction s1 as [|a s1 IH]; simpl; [reflexivity | now rewrite IH]. Qed.

Lemma fmt_length (w : nat) (n : N) : String.length (fmt w n) = w.
Proof.
  revert n. induction w as [|w IH]; intros n; [reflexivity|].
  rewrite fmt_succ, append_length, IH. simpl. lia.
Qed.

(** Comparing two texts that start with parts of equal length: the parts
    decide, and the rests when the parts are equal. *)
Lemma compare_append (p1 p2 s1 s2 : string) :
  String.length p1 = String.length p2 ->
  String.compare (p1 +:+ s1) (p2 +:+ s2) =
    match String.compare p1 p2 with
    | Eq => String.compare s1 s2
    | c => c
    end.
Proof.
  revert p2. induction p1 as [|a p1 IH]; intros [|b p2] Hlen; simpl in *;
    try discriminate; [reflexivity|].
  destruct (Ascii.compare a b); [apply IH; lia | reflexivity | reflexivity].
Qed.

Lemma compare_same_head (c : ascii) (s1 s2 : string) :
  String.compare (String c s1) (String c s2) = String.compare s1 s2.
Proof. simpl. unfold Ascii.compare. now rewrite N.compare_refl. Qed.

Lemma digit_char_compare (a b : N) :
  Ascii.compare (digit_char a) (digit_char b) = (a mod 10 ?= b mod 10)%N.
Proof.
  unfold Ascii.compare, digit_char.
  assert (Ha : (a mod 10 < 10)%N) by (apply N.mod_lt; lia).
  assert (Hb : (b mod 10 < 10)%N) by (apply N.mod_lt; lia).
  rewrite !N_ascii_embedding by lia.
  destruct (N.compare_spec (a mod 10) (b mod 10)) as [He | Hl | Hg].
  - rewrite He. apply N.compare_refl.
  - apply N.compare_lt_iff. lia.
  - apply N.compare_gt_iff. lia.
Qed.

(** A number against another: the tens decide, then the units. *)
Lemma compare_by_digits (a b : N) :
  (a ?= b)%N =
    match (a / 10 ?= b / 10)%N with
    | Eq => (a mod 10 ?= b mod 10)%N
    | c => c
    end.
Proof.
  assert (Ha : a = (10 * (a / 10) + a mod 10)%N) by (apply N.div_mod; lia).
  assert (Hb : b = (10 * (b / 10) + b mod 10)%N) by (apply N.div_mod; lia).
  assert (Ha' : (a mod 10 < 10)%N) by (apply N.mod_lt; lia).
  assert (Hb' : (b mod 10 < 10)%N) by (apply N.mod_lt; lia).
  revert Ha Hb Ha' Hb'.
  generalize (a / 10)%N (a mod 10)%N (b / 10)%N (b mod 10)%N.
  intros qa ra qb rb Ha Hb Ha' Hb'.
  destruct (N.compare_spec qa qb) as [He | Hl | Hg].
  - destruct (N.compare_spec ra rb).
    + apply N.compare_eq_iff. lia.
    + apply N.compare_lt_iff. lia.
    + apply N.compare_gt_iff. lia.
  - apply N.compare_lt_iff. lia.
  - apply N.compare_gt_iff. lia.
Qed.

(** Padded numbers of equal width compare as the numbers. *)
Lemma fmt_compare (w : nat) (a b : N) :
  (a < 10 ^ N.of_nat w)%N -> (b < 10 ^ N.of_nat w)%N ->
  String.compare (fmt w a) (fmt w b) = (a ?= b)%N.
Proof.
  revert a b. induction w as [|w IH]; intros a b Ha Hb.
  - simpl in Ha, Hb. assert (a = 0%N) by lia. assert (b = 0%N) by lia. now subst.
  - rewrite Nat2N.inj_succ, N.pow_succ_r' in Ha, Hb.
    rewrite !fmt_succ, compare_append by now rewrite !fmt_length.
    rewrite IH by (apply N.Div0.div_lt_upper_bound; lia).
    rewrite (compare_by_digits a b).
    destruct (a / 10 ?= b / 10)%N; try reflexivity.
    simpl. rewrite digit_char_compare. now destruct (a mod 10 ?= b mod 10)%N.
Qed.

(** The fraction of a second, present only when not zero. *)
Lemma fraction_compare (a b : N) :
  (a < 1000000)%N -> (b < 1000000)%N ->
  String.compare (if N.eqb a 0 then "" else "." +:+ fmt 6 a)
                 (if N.eqb b 0 then "" else "." +:+ fmt 6 b) = (a ?= b)%N.
Proof.
  intros Ha Hb.
  destruct (N.eqb_spec a 0) as [-> | Hna], (N.eqb_spec b 0) as [-> | Hnb].
  - reflexivity.
  - transitivity Lt; [reflexivity | symmetry; apply N.compare_lt_iff; lia].
  - transitivity Gt; [reflexivity | symmetry; apply N.compare_gt_iff; lia].
  - change ("." +:+ fmt 6 a) with (String "." (fmt 6 a)).
    change ("." +:+ fmt 6 b) with (String "." (fmt 6 b)).
    rewrite compare_same_head. apply fmt_compare; simpl; lia.
Qed.

(** A padded number followed by a separator, against another of the same
    width and separator. *)
Lemma segment_compare (w : nat) (c : ascii) (x y : N) (s1 s2 : string) :
  (x < 10 ^ N.of_nat w)%N -> (y < 10 ^ N.of_nat w)%N ->
  String.compare (fmt w x +:+ String c "" +:+ s1) (fmt w y +:+ String c "" +:+ s2) =
    match (x ?= y)%N with
    | Eq => String.compare s1 s2
    | r => r
    end.
Proof.
  intros Hx Hy. rewrite compare_append by now rewrite !fmt_length.
  rewrite (fmt_compare w x y Hx Hy).
  change (String c "" +:+ s1) with (String c s1).
  change (String c "" +:+ s2) with (String c s2).
  now rewrite compare_same_head.
Qed.

Lemma lex_compare_cons (x y : Z) (k1 k2 : list Z) :
  lex_compare (x :: k1) (y :: k2) =
    match x ?= y with
    | Eq => lex_compare k1 k2
    | c => c
    end.
Proof. reflexivity. Qed.

(** The texts [isoformat] gives for two well-formed times compare as the
    times do. *)
Lemma isoformat_compare (a b : datetime) :
  wf_datetime a -> wf_datetime b ->
  String.compare (isoformat a) (isoformat b) = datetime_compare a b.
Proof.
  intros (Hy & Hmo & Hd & Hh & Hmi & Hs & Hus) (Hy' & Hmo' & Hd' & Hh' & Hmi' & Hs' & Hus').
  assert (H4 : (10 ^ N.of_nat 4 = 10000)%N) by reflexivity.
  assert (H2 : (10 ^ N.of_nat 2 = 100)%N) by reflexivity.
  unfold isoformat, isoformat_sep, datetime_compare, bson_key.
  rewrite !lex_compare_cons, Z.compare_refl, !N2Z.inj_compare.
  rewrite (segment_compare 4) by lia.
  rewrite !(segment_compare 2) by lia.
  rewrite compare_append by now rewrite !fmt_length.
  rewrite (fmt_compare 2) by lia.
  rewrite (fraction_compare _ _ Hus Hus').
  destruct (year a ?= year b)%N; try reflexivity.
  destruct (month a ?= month b)%N; try reflexivity.
  destruct (day a ?= day b)%N; try reflexivity.
  destruct (hour a ?= hour b)%N; try reflexivity.
  destruct (minute a ?= minute b)%N; try reflexivity.
  destruct (second a ?= second b)%N; try reflexivity.
  destruct (microsecond a ?= microsecond b)%N; reflexivity.
Qed.

Lemma isoformat_leb (a b : datetime) :
  wf_datetime a -> wf_datetime b ->
  String.leb (isoformat a) (isoformat b) =
    key_leb (bson_key (VDate a)) (bson_key (VDate b)).
Proof.
  intros Ha Hb. unfold String.leb, key_leb.
  rewrite (isoformat_compare a b Ha Hb). reflexivity.
Qed.

(** ** The order of a listing *)

Lemma StronglySorted_lookup {A} (R : A -> A -> Prop) (l : list A) (i j : nat) (a b : A) :
  StronglySorted R l -> (i < j)%nat -> l !! i = Some a -> l !! j = Some b -> R a b.
Proof.
  intros Hs. revert i j. induction Hs as [|x l Hs IH Hx]; intros i j Hij Hi Hj.
  - rewrite lookup_nil in Hi. discriminate.
  - destruct j as [|j]; [lia|]. simpl in Hj. destruct i as [|i]; simpl in Hi.
    + injection Hi as <-. rewrite Forall_forall in Hx. apply Hx.
      eapply list_elem_of_lookup_2. exact Hj.
    + apply (IH i j); [lia | assumption | assumption].
Qed.

(** Records made from documents sorted newest first: where both documents
    carry a well-formed date, the texts are those dates and are in order. *)
Lemma dated_in_order (ds : list doc) (rs : list WishOut.t) :
  StronglySorted (fun a b => before "created_at" (-1) a b = true) ds ->
  Forall2 (fun d r => exists now, r = wish_at d now) ds rs ->
  forall i j dA dB tA tB A B,
    (i < j)%nat -> ds !! i = Some dA -> ds !! j = Some dB ->
    dA !! "created_at" = Some (VDate tA) -> dB !! "created_at" = Some (VDate tB) ->
    wf_datetime tA -> wf_datetime tB ->
    rs !! i = Some A -> rs !! j = Some B ->
    WishOut.created_at A = isoformat tA /\ WishOut.created_at B = isoformat tB /\
    datetime_le tB tA /\
    String.leb (WishOut.created_at B) (WishOut.created_at A) = true.
Proof.
  intros Hs Hall i j dA dB tA tB A B Hij HdA HdB HtA HtB HwA HwB HA HB.
  destruct (Forall2_lookup_l _ _ _ _ _ Hall HdA) as (A' & HA' & nowA & ->).
  destruct (Forall2_lookup_l _ _ _ _ _ Hall HdB) as (B' & HB' & nowB & ->).
  rewrite HA in HA'. injection HA' as ->. rewrite HB in HB'. injection HB' as ->.
  assert (Hord := StronglySorted_lookup _ ds i j dA dB Hs Hij HdA HdB).
  simpl in Hord. unfold before, dict_get in Hord. simpl in Hord.
  rewrite HtA, HtB in Hord. simpl in Hord.
  assert (HcA : WishOut.created_at (wish_at dA nowA) = isoformat tA)
    by (unfold wish_at, dict_get; simpl; now rewrite HtA).
  assert (HcB : WishOut.created_at (wish_at dB nowB) = isoformat tB)
    by (unfold wish_at, dict_get; simpl; now rewrite HtB).
  split; [assumption|]. split; [assumption|]. split.
  - unfold datetime_le, datetime_compare. unfold key_leb in Hord.
    destruct (lex_compare _ _); congruence.
  - rewrite HcA, HcB, (isoformat_leb tB tA HwB HwA). exact Hord.
Qed.

(** C4, as stated, fails: the listing of a collection that holds a wish of
    1 January and a document without [created_at] puts the dated record
    first and the undated one after it, and the undated one shows the time of
    the request, which is later. *)
Lemma list_not_newest_first :
  exists rs, fst (get_api_wishes (Some 5) w_mixed) = Ok rs /\ ~ newest_first rs.
Proof.
  eexists. split; [vm_compute; reflexivity|].
  intros Hn.
  specialize (Hn 1%nat 2%nat _ _ ltac:(lia) eq_refl eq_refl).
  vm_compute in Hn. discriminate Hn.
Qed.

(** C4, amended. With the store sorting as asked, the listing is in the
    order of the stored creation times, newest first: of two returned
    records A before B whose documents both carry a [created_at] date, A's
    [created_at] is the text of its document's date, B's likewise, and A's is
    not below B's. The listing returns whenever every document found is
    mappable, and when every document found carries a date the whole answer
    is newest first. *)
Theorem list_wishes_newest_first {S} `{QueryLaws S} (w : World S) (s : S)
    (limit : option Z) :
  db w = Some s ->
  1 <= default 60 limit <= 200 ->
  let ds := find_sort_limit "wish" "created_at" (-1) (default 60 limit) s in
  (forall rs, fst (get_api_wishes limit w) = Ok rs ->
     forall i j dA dB tA tB A B,
       (i < j)%nat -> ds !! i = Some dA -> ds !! j = Some dB ->
       dA !! "created_at" = Some (VDate tA) -> dB !! "created_at" = Some (VDate tB) ->
       wf_datetime tA -> wf_datetime tB ->
       rs !! i = Some A -> rs !! j = Some B ->
       WishOut.created_at A = isoformat tA /\ WishOut.created_at B = isoformat tB /\
       datetime_le tB tA /\
       String.leb (WishOut.created_at B) (WishOut.created_at A) = true) /\
  (Forall mappable ds -> exists rs, fst (get_api_wishes limit w) = Ok rs) /\
  ((forall d, d ∈ ds -> exists t, d !! "created_at" = Some (VDate t) /\ wf_datetime t) ->
   exists rs, fst (get_api_wishes limit w) = Ok rs /\ newest_first rs).
Proof.
  intros Hdb Hr ds.
  assert (Hpairs : forall rs, fst (get_api_wishes limit w) = Ok rs ->
            Forall2 (fun d r => exists now, r = wish_at d now) ds rs).
  { intros rs Hrs.
    destruct (get_api_wishes_two_runs w w limit eq_refl) as [_ Hok].
    destruct (Hok rs Hrs) as (s' & rs2 & Hdb' & _ & Hall & _).
    rewrite Hdb in Hdb'. injection Hdb' as <-. exact Hall. }
  assert (Hret : Forall mappable ds -> exists rs, fst (get_api_wishes limit w) = Ok rs).
  { intros Hm. destruct (list_wishes_found w s limit Hr Hdb Hm) as (rs & Hrs & _). eauto. }
  split; [|split; [exact Hret|]].
  - intros rs Hrs. apply dated_in_order; [apply sort_law | now apply Hpairs].
  - intros Hdated.
    destruct Hret as [rs Hrs].
    { apply Forall_forall. intros d Hd. destruct (Hdated d Hd) as (t & Ht & _).
      right. eauto. }
    exists rs. split; [assumption|].
    intros i j A B Hij HA HB.
    destruct (Forall2_lookup_r _ _ _ _ _ (Hpairs rs Hrs) HA) as (dA & HdA & _).
    destruct (Forall2_lookup_r _ _ _ _ _ (Hpairs rs Hrs) HB) as (dB & HdB & _).
    destruct (Hdated dA (list_elem_of_lookup_2 _ _ _ HdA)) as (tA & HtA & HwA).
    destruct (Hdated dB (list_elem_of_lookup_2 _ _ _ HdB)) as (tB & HtB & HwB).
    apply (dated_in_order ds rs (sort_law _ _ _ _) (Hpairs rs Hrs)
             i j dA dB tA tB A B Hij HdA HdB HtA HtB HwA HwB HA HB).
Qed.

Lemma list_wishes_newest_first_witness :
  exists rs A B,
    fst (get_api_wishes (Some 5) w_mixed) = Ok rs /\
    rs !! 0%nat = Some A /\ rs !! 1%nat = Some B /\
    WishOut.created_at A = "2024-02-01T00:00:00" /\
    WishOut.created_at B = "2024-01-01T00:00:00" /\
    String.leb (WishOut.created_at B) (WishOut.created_at A) = true.
Proof.
  destruct (list_wishes_newest_first w_mixed
              (store_of [doc_complete; doc_undated; doc_textless]) (Some 5))
    as (Hpair & _ & _); [reflexivity | simpl; lia |].
  eexists _, _, _. split; [vm_compute; reflexivity|].
  split; [reflexivity|]. split; [reflexivity|].
  destruct (Hpair _ ltac:(vm_compute; reflexivity) 0%nat 1%nat doc_textless doc_complete
              (mk_datetime 2024 2 1 0 0 0 0) (mk_datetime 2024 1 1 0 0 0 0) _ _
              ltac:(lia) ltac:(vm_compute; reflexivity) ltac:(vm_compute; reflexivity)
              ltac:(vm_compute; reflexivity) ltac:(vm_compute; reflexivity)
              ltac:(unfold wf_datetime; simpl; lia) ltac:(unfold wf_datetime; simpl; lia)
              eq_refl eq_refl)
    as (HA & HB & _ & Hle).
  split; [exact HA|]. split; [exact HB | exact Hle].
Defined.

(** * Further properties of the handlers *)

(** ** Every outcome of a listing *)

(** The four ways a listing can go, with what each leaves behind. *)
Lemma get_api_wishes_outcome {S} `{Store S} (w : World S) (limit : option Z) :
  let n := default 60 limit in
  (~ (1 <= n <= 200) /\
   exists msg, get_api_wishes limit w = (Raise (RequestValidationError msg), w)) \/
  (1 <= n <= 200 /\ db w = None /\
   get_api_wishes limit w = (Raise StoreUnavailable, w)) \/
  (1 <= n <= 200 /\ exists s, db w = Some s /\
   db (snd (get_api_wishes limit w)) = db w /\
   calls (snd (get_api_wishes limit w)) = calls w ++ [Find "wish" "created_at" (-1) n] /\
   ((Forall mappable (find_sort_limit "wish" "created_at" (-1) n s) /\
     exists rs, fst (get_api_wishes limit w) = Ok rs /\
       length rs = length (find_sort_limit "wish" "created_at" (-1) n s)) \/
    (~ Forall mappable (find_sort_limit "wish" "created_at" (-1) n s) /\
     fst (get_api_wishes limit w) =
       Raise (PyError AttributeError "object has no attribute 'isoformat'")))).
Proof.
  intros n. destruct (decide (1 <= n <= 200)) as [Hr | Hr].
  - right.
    assert (Hget : get_api_wishes limit w = list_wishes n w).
    { unfold get_api_wishes, bind, lift. subst n. destruct limit as [m|].
      - rewrite Query_int_in_range by exact Hr. reflexivity.
      - reflexivity. }
    rewrite Hget. destruct (db w) as [s|] eqn:Hdb.
    + right. split; [assumption|]. exists s. split; [reflexivity|].
      rewrite (list_wishes_run w s n Hdb).
      destruct (for_doc_in_store_untouched (find_sort_limit "wish" "created_at" (-1) n s)
                  (mk_World (db w) (clock w) (ticks w)
                            (calls w ++ [Find "wish" "created_at" (-1) n]))) as [Hd Hc].
      split; [rewrite Hd; simpl; congruence|]. split; [rewrite Hc; reflexivity|].
      destruct (Forall_mappable_dec (find_sort_limit "wish" "created_at" (-1) n s))
        as [Hm | Hm].
      * left. split; [assumption|].
        destruct (for_doc_in_mappable _ (mk_World (db w) (clock w) (ticks w)
                    (calls w ++ [Find "wish" "created_at" (-1) n])) Hm)
          as (rs & w' & Hrun & _).
        exists rs. rewrite Hrun. split; [reflexivity|].
        exact (for_doc_in_length _ _ _ _ Hrun).
      * right. split; [assumption|]. now apply for_doc_in_raises.
    + left. split; [assumption|]. split; [reflexivity|]. now apply list_wishes_no_db.
  - left. split; [assumption|]. subst n.
    destruct limit as [m|]; simpl in Hr; [|lia].
    destruct (Query_int_rejects 60 1 200 m) as [msg Hmsg]; [lia|].
    exists msg. unfold get_api_wishes, bind, lift. now rewrite Hmsg.
Qed.


(** X4. What a listing asks of the store, on every path: nothing at all,
    the world left exactly as it was, when the limit is refused or there is
    no store; otherwise exactly one query of the wish collection, sorted on
    [created_at] descending, with a limit within 1..200 (never 0, which the
    store would read as no limit), and the store handle as it was. *)
Theorem list_store_calls {S} `{Store S} (w : World S) (limit : option Z) :
  snd (get_api_wishes limit w) = w \/
  (exists n s, 1 <= n <= 200 /\ n = default 60 limit /\ db w = Some s /\
     db (snd (get_api_wishes limit w)) = db w /\
     calls (snd (get_api_wishes limit w)) = calls w ++ [Find "wish" "created_at" (-1) n]).
Proof.
  destruct (get_api_wishes_outcome w limit)
    as [(Hr & msg & Hrun) | [(Hr & Hdb & Hrun) | (Hr & s & Hdb & Hd & Hc & _)]].
  - left. now rewrite Hrun.
  - left. now rewrite Hrun.
  - right. exists (default 60 limit), s. repeat split; try assumption; lia.
Qed.

(** ** Every outcome of a create request *)

(** The world after the insert and the re-read, spelled out. *)
Lemma after_reread_eq {S} `{Store S} (w : World S) (s : S) (t : string) :
  db w = Some s ->
  after_reread w t =
    mk_World (Some (snd (insert_one "wish" (written t (clock w (ticks w))) s)))
             (clock w) (Datatypes.S (ticks w))
             (calls w ++ [InsertOne "wish" (written t (clock w (ticks w)));
                          FindOne "wish"
                            (fst (insert_one "wish" (written t (clock w (ticks w))) s))]).
Proof. intros Hdb. unfold after_reread. now rewrite Hdb. Qed.

(** The ways a create request can go. *)
Lemma post_api_wishes_outcome {S} `{Store S} (Wish : string -> bool)
    (w : World S) (body : string) :
  (~ (1 <= String.length body <= 500)%nat /\
   exists msg, post_api_wishes Wish body w = (Raise (RequestValidationError msg), w)) \/
  ((1 <= String.length body <= 500)%nat /\ db w = None /\
   post_api_wishes Wish body w = (Raise StoreUnavailable, w)) \/
  ((1 <= String.length body <= 500)%nat /\ (exists s, db w = Some s) /\ Wish body = false /\
   post_api_wishes Wish body w =
     (Raise (PyError ValidationError "1 validation error for Wish"), w)) \/
  ((1 <= String.length body <= 500)%nat /\ Wish body = true /\ exists s, db w = Some s /\
   db (snd (post_api_wishes Wish body w)) =
     Some (snd (insert_one "wish" (written body (clock w (ticks w))) s)) /\
   calls (snd (post_api_wishes Wish body w)) =
     calls w ++ [InsertOne "wish" (written body (clock w (ticks w)));
                 FindOne "wish"
                   (fst (insert_one "wish" (written body (clock w (ticks w))) s))] /\
   ((doc_truthy (reread s w body) = false /\
     fst (post_api_wishes Wish body w) = Raise PersistenceError) \/
    (exists d, reread s w body = Some d /\ d <> ∅ /\
       ((mappable d /\
         fst (post_api_wishes Wish body w)
           = Ok (wish_at d (clock w (Datatypes.S (ticks w))))) \/
        (~ mappable d /\
         fst (post_api_wishes Wish body w)
           = Raise (PyError AttributeError "object has no attribute 'isoformat'")))))).
Proof.
  destruct (decide (1 <= String.length body <= 500)%nat) as [Hl | Hl].
  - right. rewrite (post_enters_handler Wish body w Hl).
    destruct (db w) as [s|] eqn:Hdb.
    + right. destruct (Wish body) eqn:HW.
      * right. split; [assumption|]. split; [reflexivity|]. exists s. split; [reflexivity|].
        rewrite (create_wish_run Wish w s body Hdb HW), (after_reread_eq w s body Hdb).
        destruct (reread s w body) as [d|] eqn:Hre; simpl.
        -- destruct (bool_decide (d = ∅)) eqn:He; simpl.
           ++ split; [reflexivity|]. split; [reflexivity|]. left. now split.
           ++ apply bool_decide_eq_false in He.
              rewrite (proj1 (wish_dict_store_untouched _ _)),
                (proj2 (wish_dict_store_untouched _ _)). simpl.
              split; [reflexivity|]. split; [reflexivity|]. right.
              exists d. split; [reflexivity|]. split; [assumption|].
              destruct (mappable_dec d) as [Hm | Hm].
              ** left. split; [assumption|].
                 destruct (wish_dict_mappable d
                   (mk_World (Some (snd (insert_one "wish" (written body (clock w (ticks w))) s)))
                      (clock w) (Datatypes.S (ticks w))
                      (calls w ++ [InsertOne "wish" (written body (clock w (ticks w)));
                         FindOne "wish"
                           (fst (insert_one "wish" (written body (clock w (ticks w))) s))]))
                   Hm) as (w' & Hrun & _).
                 rewrite Hrun. reflexivity.
              ** right. split; [assumption|]. rewrite (wish_dict_raises _ _ Hm). reflexivity.
        -- split; [reflexivity|]. split; [reflexivity|]. left. now split.
      * left. split; [assumption|]. split; [eauto|]. split; [reflexivity|].
        apply (create_wish_rejected_by_schema Wish w s body Hdb HW).
    + left. split; [assumption|]. split; [reflexivity|]. now apply create_wish_no_db.
  - left. split; [assumption|]. apply (post_rejected_early Wish body w Hl).
Qed.


(** X3. What a create request asks of the store, on every path: nothing at
    all, the world left exactly as it was, when the text has an unacceptable
    length, there is no store, or the [Wish] schema refuses the text;
    otherwise exactly one insert, of the document made of that text and the
    current time, followed by one re-read under the identifier the insert
    returned. So a document is written only for a text that passed both
    validations, and at most one per request. *)
Theorem create_store_calls {S} `{Store S} (Wish : string -> bool)
    (w : World S) (body : string) :
  (snd (post_api_wishes Wish body w) = w /\
   (~ (1 <= String.length body <= 500)%nat \/ db w = None \/ Wish body = false)) \/
  ((1 <= String.length body <= 500)%nat /\ Wish body = true /\
   exists s, db w = Some s /\
     db (snd (post_api_wishes Wish body w)) =
       Some (snd (insert_one "wish" (written body (clock w (ticks w))) s)) /\
     calls (snd (post_api_wishes Wish body w)) =
       calls w ++ [InsertOne "wish" (written body (clock w (ticks w)));
                   FindOne "wish"
                     (fst (insert_one "wish" (written body (clock w (ticks w))) s))] /\
     written body (clock w (ticks w)) !! "text" = Some (VStr body)).
Proof.
  destruct (post_api_wishes_outcome Wish w body)
    as [(Hl & msg & Hrun) | [(Hl & Hdb & Hrun) | [(Hl & (s & Hdb) & HW & Hrun)
        | (Hl & HW & s & Hdb & Hd & Hc & _)]]].
  - left. rewrite Hrun. tauto.
  - left. rewrite Hrun. tauto.
  - left. rewrite Hrun. tauto.
  - right. split; [assumption|]. split; [assumption|]. exists s.
    split; [assumption|]. split; [assumption|]. split; [assumption|].
    unfold written. rewrite lookup_insert_ne by discriminate. apply lookup_singleton_eq.
Qed.

(** ** What the diagnostics report *)

(** One case of [test_database] with its outcome known: settle an
    equivalence between a reported field and the state of the handle. *)
Ltac diag_settle Hn Hl :=
  match goal with
  | |- _ <-> _ =>
      split;
      [ let Heq := fresh "Heq" in
        intros Heq; try discriminate Heq;
        repeat eexists; try eassumption; try reflexivity;
        unfold name_readable; rewrite ?Hn; exact I
      | let Hx := fresh "Hx" in
        intros Hx;
        repeat match goal with
               | Hy : exists _, _ |- _ => destruct Hy
               | Hy : _ /\ _ |- _ => destruct Hy
               end;
        simplify_eq; unfold name_readable in *;
        repeat match goal with
               | Hr : match name_attr _ with _ => _ end |- _ => rewrite Hn in Hr
               | Hr : list_collection_names _ = Ok _ |- _ => rewrite Hl in Hr
               end;
        try contradiction; try discriminate; reflexivity ]
  end.

(** X5. The diagnostics say what happened: [database] reads "Connected &
    Working" exactly when there is a handle, reading its name did not get in
    the way, and listing the collection names succeeded; and
    [connection_status] reads "Connected" exactly when there is a handle and
    reading its name did not get in the way, whether or not the listing then
    failed. *)
Theorem diagnostics_report {S} `{Store S} (db : option S) (environ : gmap string string)
    (r : Diag.t) :
  test_database db environ = Ok r ->
  (Diag.database r = "✅ Connected & Working" <->
     exists s names, db = Some s /\ name_readable s /\ list_collection_names s = Ok names) /\
  (Diag.connection_status r = "Connected" <-> exists s, db = Some s /\ name_readable s).
Proof.
  unfold test_database, test_connection, test_collections, hasattr_name.
  destruct db as [s|].
  - destruct (name_attr s) as [v|e] eqn:Hn;
      [|destruct e as [msg|c detail|c msg]; [| |destruct c]];
      destruct (list_collection_names s) as [names|e'] eqn:Hl;
      unfold try_except, bind, lift, ret, raise; simpl; rewrite ?Hn, ?Hl; simpl;
      intros [= <-]; simpl; (split; diag_settle Hn Hl).
  - simpl. intros [= <-]. simpl. split; split; try discriminate.
    + intros (s & names & Hs & _). discriminate Hs.
    + intros (s & Hs & _). discriminate Hs.
Qed.

Lemma diagnostics_report_witness :
  exists r, test_database (Some stub_timeout) ∅ = Ok r /\
    Diag.database r <> "✅ Connected & Working" /\
    Diag.connection_status r = "Connected".
Proof.
  assert (Hrun : exists r, test_database (Some stub_timeout) ∅ = Ok r)
    by (eexists; vm_compute; reflexivity).
  destruct Hrun as [r Hrun]. exists r. split; [exact Hrun|].
  destruct (diagnostics_report (Some stub_timeout) ∅ r Hrun) as [Hdb Hconn].
  split.
  - intros Heq. apply Hdb in Heq. destruct Heq as (s & names & Hs & _ & Hl).
    injection Hs as <-. discriminate Hl.
  - apply Hconn. exists stub_timeout. split; [reflexivity | exact I].
Defined.

(** ** Records follow the documents found *)

(** X6. A listing that returns hands back the documents the query found,
    one record each and in the query's order: the ids are the documents'
    [_id]s as strings, the texts are the documents' [text]s (empty where
    missing), and the record of a document that carries a date shows that
    date. *)
Theorem list_records_follow_cursor {S} `{Store S} (w : World S) (s : S)
    (limit : option Z) (rs : list WishOut.t) :
  db w = Some s ->
  fst (get_api_wishes limit w) = Ok rs ->
  let ds := find_sort_limit "wish" "created_at" (-1) (default 60 limit) s in
  WishOut.id <$> rs = (fun d => py_str (dict_get d "_id")) <$> ds /\
  WishOut.text <$> rs = (fun d => dict_get_default d "text" (VStr "")) <$> ds /\
  (forall i d t, ds !! i = Some d -> d !! "created_at" = Some (VDate t) ->
     WishOut.created_at <$> rs !! i = Some (isoformat t)).
Proof.
  intros Hdb Hrs ds.
  destruct (get_api_wishes_two_runs w w limit eq_refl) as [_ Hok].
  destruct (Hok rs Hrs) as (s' & rs2 & Hdb' & _ & Hall & _).
  rewrite Hdb in Hdb'. injection Hdb' as <-.
  destruct (wish_at_ids _ _ Hall) as [Hid Htx].
  split; [exact Hid|]. split; [exact Htx|].
  intros i d t Hi Hd.
  destruct (Forall2_lookup_l _ _ _ _ _ Hall Hi) as (r & Hr & now & ->).
  rewrite Hr. simpl. unfold dict_get. now rewrite Hd.
Qed.

Lemma list_records_follow_cursor_witness :
  exists rs, fst (get_api_wishes (Some 5) w_mixed) = Ok rs /\
    WishOut.id <$> rs = [str_oid 2%N; str_oid 0%N; str_oid 1%N].
Proof.
  assert (Hrun : exists rs, fst (get_api_wishes (Some 5) w_mixed) = Ok rs)
    by (eexists; vm_compute; reflexivity).
  destruct Hrun as [rs Hrun]. exists rs. split; [exact Hrun|].
  destruct (list_records_follow_cursor w_mixed
              (store_of [doc_complete; doc_undated; doc_textless]) (Some 5) rs
              eq_refl Hrun) as (Hid & _ & _).
  rewrite Hid. vm_compute. reflexivity.
Defined.

(** ** Create, then list *)

Lemma elem_of_insert_sorted (le : doc -> doc -> bool) (d x : doc) (l : list doc) :
  x ∈ insert_sorted le d l <-> x = d \/ x ∈ l.
Proof.
  induction l as [|a l IH]; simpl.
  - rewrite list_elem_of_singleton, elem_of_nil. tauto.
  - destruct (le d a).
    + rewrite elem_of_cons. tauto.
    + rewrite !elem_of_cons, IH. tauto.
Qed.

(** Sorting keeps the documents, all of them and no others. *)
Lemma elem_of_sort_docs (le : doc -> doc -> bool) (x : doc) (l : list doc) :
  x ∈ sort_docs le l <-> x ∈ l.
Proof.
  induction l as [|a l IH]; simpl; [tauto|].
  rewrite elem_of_insert_sorted, elem_of_cons, IH. tauto.
Qed.

Lemma length_insert_sorted (le : doc -> doc -> bool) (d : doc) (l : list doc) :
  length (insert_sorted le d l) = Datatypes.S (length l).
Proof.
  induction l as [|a l IH]; simpl; [reflexivity|].
  destruct (le d a); simpl; [reflexivity | now rewrite IH].
Qed.

Lemma length_sort_docs (le : doc -> doc -> bool) (l : list doc) :
  length (sort_docs le l) = length l.
Proof.
  induction l as [|a l IH]; simpl; [reflexivity|].
  now rewrite length_insert_sorted, IH.
Qed.

(** A limit that the collection does not reach cuts nothing off. *)
Lemma cursor_limit_all (n : Z) (l : list doc) :
  0 < n -> (length l <= Z.to_nat n)%nat -> cursor_limit n l = l.
Proof.
  intros Hn Hl. unfold cursor_limit. destruct (Z.eqb_spec n 0); [lia|].
  apply take_ge. lia.
Qed.

(** The in-memory store finds the document it has just stored. *)
Lemma mem_reread_stored (s : MemStore) (d : doc) :
  mem_wf s ->
  find_one "wish" (fst (insert_one "wish" d s)) (snd (insert_one "wish" d s)) =
    Some (<["_id" := VOid (mem_next s)]> (bson_encode <$> d)).
Proof.
  intros Hwf.
  change (List.find (has_id (mem_next s)) (mem_coll (snd (mem_insert_one "wish" d s)) "wish")
          = Some (<["_id" := VOid (mem_next s)]> (bson_encode <$> d))).
  rewrite mem_coll_insert. apply find_app_last.
  - intros y Hy. unfold has_id.
    destruct (y !! "_id") as [[| | | | o' |]|] eqn:Hid; try reflexivity.
    specialize (Hwf "wish" y o' Hy Hid). apply N.eqb_neq. lia.
  - unfold has_id. rewrite lookup_insert_eq. apply N.eqb_refl.
Qed.

(** X7. Create, then list, on the in-memory store: a create request with a
    text of acceptable length on a store whose wish collection holds
    mappable documents, fewer than the limit of the listing that follows,
    returns a record carrying that text, the new identifier and the stored
    time (the time of the insert, kept to the millisecond); and the listing
    returns one record more than the collection held, that record among
    them. *)
Theorem create_then_list (s : MemStore) (w : World MemStore) (t : string)
    (limit : option Z) :
  mem_wf s ->
  db w = Some s ->
  (1 <= String.length t <= 500)%nat ->
  1 <= default 60 limit <= 200 ->
  (length (mem_coll s "wish") < Z.to_nat (default 60%Z limit))%nat ->
  Forall mappable (mem_coll s "wish") ->
  exists rec rs,
    fst (post_api_wishes Wish_schema t w) = Ok rec /\
    rec = WishOut.mk (str_oid (mem_next s)) (VStr t)
                     (isoformat (ms_truncate (clock w (ticks w)))) /\
    fst (get_api_wishes limit (snd (post_api_wishes Wish_schema t w))) = Ok rs /\
    rec ∈ rs /\
    length rs = Datatypes.S (length (mem_coll s "wish")).
Proof.
  intros Hwf Hdb Hl Hr Hsize Hmap.
  set (d := written t (clock w (ticks w))).
  set (d' := <["_id" := VOid (mem_next s)]> (bson_encode <$> d)).
  assert (Hre : reread s w t = Some d') by apply (mem_reread_stored s d Hwf).
  assert (Hid : d' !! "_id" = Some (VOid (mem_next s))) by apply lookup_insert_eq.
  assert (Htext : d' !! "text" = Some (VStr t)).
  { unfold d', d, written. rewrite lookup_insert_ne by discriminate.
    rewrite lookup_fmap, lookup_insert_ne by discriminate.
    now rewrite lookup_singleton_eq. }
  assert (Hdate : d' !! "created_at" = Some (VDate (ms_truncate (clock w (ticks w))))).
  { unfold d', d, written. rewrite lookup_insert_ne by discriminate.
    now rewrite lookup_fmap, lookup_insert_eq. }
  assert (Hne : d' <> ∅).
  { intros He. rewrite He, lookup_empty in Hid. discriminate. }
  assert (Hm : mappable d') by (right; eauto).
  assert (Hat : forall now, wish_at d' now =
            WishOut.mk (str_oid (mem_next s)) (VStr t)
                       (isoformat (ms_truncate (clock w (ticks w))))).
  { intros now. unfold wish_at, dict_get, dict_get_default. now rewrite Hid, Htext, Hdate. }
  exists (wish_at d' (clock w (Datatypes.S (ticks w)))).
  assert (Hpost := create_wish_found w s t d' Hl Hdb Hre Hne Hm).
  destruct (create_wish_interactions w s t Hl Hdb) as [Hdb1 _]. fold d in Hdb1.
  set (w1 := snd (post_api_wishes Wish_schema t w)) in *.
  set (s1 := snd (insert_one "wish" d s)) in *.
  assert (Hcoll : mem_coll s1 "wish" = mem_coll s "wish" ++ [d']) by apply mem_coll_insert.
  assert (Hcur : find_sort_limit "wish" "created_at" (-1) (default 60 limit) s1 =
                 sort_docs (before "created_at" (-1)) (mem_coll s "wish" ++ [d'])).
  { simpl. rewrite Hcoll. apply cursor_limit_all; [lia|].
    rewrite length_sort_docs, length_app. simpl. lia. }
  destruct (list_wishes_found w1 s1 limit Hr Hdb1) as (rs & Hrs & Hall).
  { rewrite Hcur. apply Forall_forall. intros x Hx.
    apply elem_of_sort_docs, elem_of_app in Hx. destruct Hx as [Hx | Hx].
    - rewrite Forall_forall in Hmap. now apply Hmap.
    - apply list_elem_of_singleton in Hx. now subst x. }
  exists rs. split; [exact Hpost|]. split; [apply Hat|]. split; [exact Hrs|].
  rewrite Hcur in Hall. split.
  - assert (Hin : d' ∈ sort_docs (before "created_at" (-1)) (mem_coll s "wish" ++ [d'])).
    { apply elem_of_sort_docs, elem_of_app. right. apply list_elem_of_singleton.
      reflexivity. }
    apply list_elem_of_lookup_1 in Hin. destruct Hin as [i Hi].
    destruct (Forall2_lookup_l _ _ _ _ _ Hall Hi) as (r & Hri & n & _ & ->).
    rewrite (Hat (clock w (Datatypes.S (ticks w)))), <- (Hat (clock w1 n)).
    eapply list_elem_of_lookup_2. exact Hri.
  - rewrite <- (Forall2_length _ _ _ Hall), length_sort_docs, length_app. simpl. lia.
Qed.

Lemma create_then_list_witness :
  exists rec rs,
    fst (post_api_wishes Wish_schema "world peace" w_up) = Ok rec /\
    WishOut.text rec = VStr "world peace" /\
    fst (get_api_wishes None (snd (post_api_wishes Wish_schema "world peace" w_up))) = Ok rs /\
    rec ∈ rs /\ length rs = 1%nat.
Proof.
  destruct (create_then_list empty_store w_up "world peace" None)
    as (rec & rs & Hpost & Hrec & Hget & Hin & Hlen).
  - apply mem_wf_empty.
  - reflexivity.
  - simpl. lia.
  - simpl. lia.
  - vm_compute. lia.
  - vm_compute. constructor.
  - exists rec, rs. split; [exact Hpost|]. split; [now rewrite Hrec|].
    split; [exact Hget|]. split; [exact Hin | exact Hlen].
Defined.

(** The head of a sorted list is the document nothing else may precede. *)
Lemma sort_docs_head (le : doc -> doc -> bool) (l : list doc) (d : doc) :
  (forall a b, le a b = false -> le b a = true) ->
  (forall a b c, le a b = true -> le b c = true -> le a c = true) ->
  d ∈ l ->
  (forall x, x ∈ l -> x = d \/ le x d = false) ->
  head (sort_docs le l) = Some d.
Proof.
  intros Htot Htrans Hd Hothers.
  assert (Hs := sort_docs_sorted le Htot Htrans l).
  assert (Hin : d ∈ sort_docs le l) by now apply elem_of_sort_docs.
  destruct (sort_docs le l) as [|h tl] eqn:Hsorted; [inversion Hin|].
  simpl. f_equal.
  assert (Hh : h ∈ l) by (apply (elem_of_sort_docs le); rewrite Hsorted; constructor).
  destruct (Hothers h Hh) as [-> | Hlt]; [reflexivity|].
  apply elem_of_cons in Hin. destruct Hin as [-> | Hin]; [reflexivity|].
  inversion Hs as [|? ? _ Hall]; subst.
  rewrite Forall_forall in Hall. rewrite (Hall d Hin) in Hlt. discriminate.
Qed.

Lemma before_newest_first_dates (x y : doc) (tx ty : datetime) :
  x !! "created_at" = Some (VDate tx) -> y !! "created_at" = Some (VDate ty) ->
  before "created_at" (-1) x y =
    match datetime_compare ty tx with Gt => false | _ => true end.
Proof. intros Hx Hy. unfold before, dict_get. rewrite Hx, Hy. reflexivity. Qed.

Lemma datetime_compare_antisym (a b : datetime) :
  datetime_compare b a = CompOpp (datetime_compare a b).
Proof. apply lex_compare_antisym. Qed.

(** X8. The newest wish comes first, on the in-memory store: when every
    document of the wish collection carries a date earlier than the time
    stored for the new wish, the record a create request returns is the
    first record of the listing that follows, whatever its limit. *)
Theorem create_lists_first (s : MemStore) (w : World MemStore) (t : string)
    (limit : option Z) :
  mem_wf s ->
  db w = Some s ->
  (1 <= String.length t <= 500)%nat ->
  1 <= default 60 limit <= 200 ->
  (forall x, x ∈ mem_coll s "wish" ->
     exists tx, x !! "created_at" = Some (VDate tx) /\
       datetime_compare tx (ms_truncate (clock w (ticks w))) = Lt) ->
  exists rec rs,
    fst (post_api_wishes Wish_schema t w) = Ok rec /\
    fst (get_api_wishes limit (snd (post_api_wishes Wish_schema t w))) = Ok rs /\
    rs !! 0%nat = Some rec.
Proof.
  intros Hwf Hdb Hl Hr Hold.
  set (d := written t (clock w (ticks w))).
  set (d' := <["_id" := VOid (mem_next s)]> (bson_encode <$> d)).
  assert (Hre : reread s w t = Some d') by apply (mem_reread_stored s d Hwf).
  assert (Hid : d' !! "_id" = Some (VOid (mem_next s))) by apply lookup_insert_eq.
  assert (Hdate : d' !! "created_at" = Some (VDate (ms_truncate (clock w (ticks w))))).
  { unfold d', d, written. rewrite lookup_insert_ne by discriminate.
    now rewrite lookup_fmap, lookup_insert_eq. }
  assert (Hne : d' <> ∅).
  { intros He. rewrite He, lookup_empty in Hid. discriminate. }
  assert (Hm : mappable d') by (right; eauto).
  assert (Hat : forall now1 now2, wish_at d' now1 = wish_at d' now2).
  { intros now1 now2. unfold wish_at, dict_get. now rewrite Hdate. }
  assert (Hpost := create_wish_found w s t d' Hl Hdb Hre Hne Hm).
  destruct (create_wish_interactions w s t Hl Hdb) as [Hdb1 _]. fold d in Hdb1.
  set (w1 := snd (post_api_wishes Wish_schema t w)) in *.
  set (s1 := snd (insert_one "wish" d s)) in *.
  assert (Hcoll : mem_coll s1 "wish" = mem_coll s "wish" ++ [d']) by apply mem_coll_insert.
  assert (Hhead : head (find_sort_limit "wish" "created_at" (-1) (default 60 limit) s1)
                  = Some d').
  { simpl. rewrite Hcoll. unfold cursor_limit.
    destruct (Z.eqb_spec (default 60 limit) 0) as [Hz | Hz]; [lia|].
    assert (Hsh : head (sort_docs (before "created_at" (-1)) (mem_coll s "wish" ++ [d']))
                  = Some d').
    { apply sort_docs_head; [apply before_total | apply before_trans | |].
      - apply elem_of_app. right. apply list_elem_of_singleton. reflexivity.
      - intros x Hx. apply elem_of_app in Hx. destruct Hx as [Hx | Hx].
        + right. destruct (Hold x Hx) as (tx & Htx & Hcmp).
          rewrite (before_newest_first_dates x d' tx _ Htx Hdate).
          rewrite (datetime_compare_antisym tx), Hcmp. reflexivity.
        + left. now apply list_elem_of_singleton in Hx. }
    destruct (sort_docs _ _) as [|h tl]; [discriminate Hsh|].
    destruct (Z.abs_nat (default 60 limit)) eqn:Hn; [lia|]. exact Hsh. }
  destruct (list_wishes_found w1 s1 limit Hr Hdb1) as (rs & Hrs & Hall).
  { apply mem_cursor_Forall. rewrite Hcoll. apply Forall_app. split.
    - apply Forall_forall. intros x Hx. destruct (Hold x Hx) as (tx & Htx & _).
      right. eauto.
    - apply List.Forall_cons; [exact Hm | apply List.Forall_nil]. }
  exists (wish_at d' (clock w (Datatypes.S (ticks w)))), rs.
  split; [exact Hpost|]. split; [exact Hrs|].
  destruct (find_sort_limit "wish" "created_at" (-1) (default 60 limit) s1) as [|h tl];
    [discriminate Hhead|].
  simpl in Hhead. injection Hhead as ->.
  inversion Hall as [|? r ? rs' (n & _ & ->) Hrest]; subst.
  rewrite (Hat (clock w1 n) (clock w (Datatypes.S (ticks w)))). reflexivity.
Qed.

Lemma create_lists_first_witness :
  exists rec rs,
    fst (post_api_wishes Wish_schema "second"
           (world_of (Some (store_of [doc_complete])))) = Ok rec /\
    fst (get_api_wishes (Some 1)
           (snd (post_api_wishes Wish_schema "second"
                   (world_of (Some (store_of [doc_complete])))))) = Ok rs /\
    rs !! 0%nat = Some rec.
Proof.
  apply (create_lists_first (store_of [doc_complete])
           (world_of (Some (store_of [doc_complete]))) "second" (Some 1)).
  - intros coll d o Hd Hid. unfold store_of, mem_coll in Hd. simpl in Hd.
    destruct (decide (coll = "wish")) as [-> | Hne].
    + rewrite lookup_singleton_eq in Hd. simpl in Hd.
      apply list_elem_of_singleton in Hd. subst d.
      vm_compute in Hid. injection Hid as <-. vm_compute. reflexivity.
    + rewrite lookup_singleton_ne in Hd by congruence. simpl in Hd. inversion Hd.
  - reflexivity.
  - simpl. lia.
  - simpl. lia.
  - intros x Hx. rewrite mem_coll_store_of in Hx.
    apply list_elem_of_singleton in Hx. subst x.
    exists (mk_datetime 2024 1 1 0 0 0 0). split; vm_compute; reflexivity.
Defined.

(** X9. How many records a listing returns, on the in-memory store: with
    every document of the wish collection mappable, as many as the
    collection holds, and the limit when it holds more. *)
Theorem list_length_exact (s : MemStore) (w : World MemStore) (limit : option Z) :
  db w = Some s ->
  1 <= default 60 limit <= 200 ->
  Forall mappable (mem_coll s "wish") ->
  exists rs, fst (get_api_wishes limit w) = Ok rs /\
    length rs = Nat.min (Z.to_nat (default 60 limit)) (length (mem_coll s "wish")).
Proof.
  intros Hdb Hr Hm.
  destruct (list_wishes_found w s limit Hr Hdb) as (rs & Hrs & Hall).
  { now apply mem_cursor_Forall. }
  exists rs. split; [exact Hrs|].
  rewrite <- (Forall2_length _ _ _ Hall). simpl. unfold cursor_limit.
  destruct (Z.eqb_spec (default 60 limit) 0) as [Hz | Hz]; [lia|].
  rewrite length_take, length_sort_docs. f_equal. lia.
Qed.

Lemma list_length_exact_witness :
  exists rs, fst (get_api_wishes (Some 2) w_mixed) = Ok rs /\ length rs = 2%nat.
Proof.
  destruct (list_length_exact (store_of [doc_complete; doc_undated; doc_textless])
              w_mixed (Some 2)) as (rs & Hrs & Hlen).
  - reflexivity.
  - simpl. lia.
  - rewrite mem_coll_store_of. apply sample_docs_mappable.
  - exists rs. split; [exact Hrs|]. rewrite Hlen, mem_coll_store_of. reflexivity.
Defined.
